(** * Sundarbans mangrove / built-up map: a shallow embedding of the script

    The script [Sunderbans_mangrove_urban_map.ipynb] is a linear pipeline:
    fetch two rasters, clip, vectorize, reproject, buffer, overlay, render,
    report areas.  This development embeds the parts of the script that
    carry its logic:

    - the fetcher ([download_file] and the GHSL zip block) over an explicit
      file system, request log and standard output, with Python exceptions
      as an outcome of each command;
    - the vectorizer [shapes_to_gdf];
    - the geometry stage (reprojection, buffer, overlay) over vector layers
      whose polygons come from an abstract geometry kernel;
    - the statistics reporter.

    Numbers that the script holds in floating point (areas, the buffer
    distance) are idealised as rationals. *)

From Stdlib Require Import ZArith QArith Qabs Qround String Ascii List Lia.
From stdpp Require Import gmap strings list pretty.

Local Open Scope string_scope.
Local Open Scope list_scope.

(** ** Python commands: state and exceptions *)

(** What the script can observe of the outside: the files under the working
    directory, the HTTP requests it has issued, and what it has printed. *)
Record World := mkWorld {
  fs : gmap string string;
  requests : list string;
  stdout : list string
}.

(** The exceptions the fetcher can meet. *)
Inductive exn :=
| RequestException   (* requests.get could not obtain any response *)
| OSError            (* open / write failed *)
| BadZipFile         (* the bytes are not a zip archive *)
| IndexError.        (* zipfile indexing the last character of an empty name *)

Inductive Outcome (A : Type) :=
| Return (a : A)
| Raise (e : exn).
Arguments Return {A} a.
Arguments Raise {A} e.

(** A command runs in a world and leaves a world, whether it returns or
    raises: what was written before an exception stays written. *)
Definition Py (A : Type) : Type := World -> Outcome A * World.

Definition ret {A} (a : A) : Py A := fun w => (Return a, w).

Definition bind {A B} (c : Py A) (k : A -> Py B) : Py B :=
  fun w =>
    match c w with
    | (Return a, w') => k a w'
    | (Raise e, w') => (Raise e, w')
    end.

Declare Scope py_scope.
Delimit Scope py_scope with py.
Notation "x <- c ;; k" := (bind c (fun x => k))
  (at level 100, c at next level, right associativity) : py_scope.
Notation "c ;; k" := (bind c (fun _ => k))
  (at level 100, right associativity) : py_scope.
Local Open Scope py_scope.

Fixpoint for_each {A} (f : A -> Py unit) (l : list A) : Py unit :=
  match l with
  | [] => ret tt
  | x :: l' => f x ;; for_each f l'
  end.

(** [print(s)]: one entry of [stdout] per call. *)
Definition print (s : string) : Py unit :=
  fun w => (Return tt, mkWorld (fs w) (requests w) (stdout w ++ [s])).

(** ** The environment of the fetcher *)

(** What [requests.get] can do: raise, or hand back a response.  The call
    in the script has no [raise_for_status]: a response with an error
    status is a response like any other. *)
Inductive HttpOutcome :=
| ConnectionFails
| Response (status_code : Z) (content : string).

(** What the disk can do to [open(dest, 'wb')] followed by one [write]. *)
Inductive DiskFault :=
| OpenFails                     (* open raises, nothing is created *)
| WriteFails (written : nat).   (* the file is created, the write raises
                                   after [written] bytes *)

(** The environment: what the server answers to a URL, what the disk does
    to a path, and what [zipfile] finds in given bytes ([None] when they are
    not an archive, else the listed names in order, each with the content
    read for that name). *)
Record Env := mkEnv {
  http : string -> HttpOutcome;
  disk : string -> option DiskFault;
  zip_members : string -> option (list (string * string))
}.

Module Fetcher.

Section WithEnv.
Context (env : Env).

(** The calls of the fetcher into the Python library and the operating
    system.  What the server answers, what the disk refuses and what the
    archive holds is the environment's; the calls below say what reaches
    the world of the script. *)

(** [os.path.exists]. *)
Definition os_path_exists (p : string) : Py bool :=
  fun w => (Return (bool_decide (is_Some (fs w !! p))), w).

(** [os.path.join] of a directory and a relative name. *)
Definition os_path_join (d p : string) : string := d +:+ "/" +:+ p.

(** [requests.get(url)]: the request is issued (and logged); its content is
    returned whatever the status. *)
Definition requests_get (url : string) : Py (Z * string) :=
  fun w =>
    let w' := mkWorld (fs w) (requests w ++ [url]) (stdout w) in
    match http env url with
    | ConnectionFails => (Raise RequestException, w')
    | Response st body => (Return (st, body), w')
    end.

(** [with open(dest, 'wb') as f: f.write(data)]. *)
Definition write_file (dest data : string) : Py unit :=
  fun w =>
    match disk env dest with
    | Some OpenFails => (Raise OSError, w)
    | Some (WriteFails k) =>
        (Raise OSError,
         mkWorld (<[dest := substring 0 k data]> (fs w)) (requests w) (stdout w))
    | None =>
        (Return tt, mkWorld (<[dest := data]> (fs w)) (requests w) (stdout w))
    end.

(** [zipfile.ZipFile(io.BytesIO(data))]. *)
Definition ZipFile (data : string) : Py (list (string * string)) :=
  fun w =>
    match zip_members env data with
    | Some ms => (Return ms, w)
    | None => (Raise BadZipFile, w)
    end.

(** [name.split('/')]: the pieces between the slashes, [cur] being the
    piece read so far. *)
Fixpoint split_slash (name cur : string) : list string :=
  match name with
  | "" => [cur]
  | String c rest =>
      if Ascii.eqb c "/" then cur :: split_slash rest ""
      else split_slash rest (cur +:+ String c "")
  end.

(** The name [zipfile] extracts a member under: the member's name without
    its empty, ['.'] and ['..'] components (so without a leading slash
    either), joined by slashes again. *)
Definition arcname (name : string) : string :=
  String.concat "/"
    (List.filter (fun x => negb (String.eqb x "" || String.eqb x "."
                                 || String.eqb x ".."))
                 (split_slash name "")).

Fixpoint last_char (s : string) : option ascii :=
  match s with
  | "" => None
  | String c "" => Some c
  | String _ rest => last_char rest
  end.

(** What [ZipFile._extract_member] does with a member of a given name,
    extracting under [dir]. *)
Inductive MemberKind :=
| NoName                    (* [is_dir] indexes an empty name *)
| Directory                 (* the name ends in a slash: a directory is made *)
| DirClash                  (* a file whose path is [dir] itself *)
| File (targetpath : string).

Definition member_kind (dir name : string) : MemberKind :=
  match last_char name with
  | None => NoName
  | Some c =>
      if Ascii.eqb c "/" then Directory
      else if String.eqb (arcname name) "" then DirClash
      else File (os_path_join dir (arcname name))
  end.

(** [z._extract_member(m, dir)].  The target is
    [normpath(join(dir, arcname))]; a directory entry makes a directory,
    which a world of files does not show; a file entry is opened with
    ['wb'] and written; when its path is [dir] itself, an existing
    directory, the open raises. *)
Definition extract_member (dir : string) (m : string * string) : Py unit :=
  match member_kind dir (fst m) with
  | NoName => fun w => (Raise IndexError, w)
  | Directory => ret tt
  | DirClash => fun w => (Raise OSError, w)
  | File targetpath => write_file targetpath (snd m)
  end.

(** [z.extractall(dir)]: the members are extracted in the order of the
    archive's list; each is paired with the content [zipfile] reads for its
    name. *)
Definition extractall (ms : list (string * string)) (dir : string) : Py unit :=
  for_each (extract_member dir) ms.

Definition data_dir : string := "data".
Definition figshare_url : string :=
  "https://figshare.com/ndownloader/files/41881913".
Definition ghsl_url : string :=
  "https://jeodpp.jrc.ec.europa.eu/ftp/jrc-opendata/GHSL/GHS_BUILT_LDS2020/GHS_BUILT_LDS2020_GLOBE_R2023A/GHS_BUILT_LDS2020_GLOBE_R2023A_3857_30ss/V1-0/GHS_BUILT_LDS2020_GLOBE_R2023A_3857_30ss_V1_0.zip".
Definition mangrove_tif : string :=
  os_path_join data_dir "AnnualMangrove_2022.tif".
Definition ghsl_zip : string := os_path_join data_dir "GHSL_BUILT_2020.zip".
Definition ghsl_tif : string :=
  os_path_join data_dir "GHS_BUILT_LDS2020_GLOBE_R2023A_3857_30ss_V1_0.tif".

Definition download_file (url dest : string) : Py unit :=
  ex <- os_path_exists dest ;;
  if negb ex then
    print ("Downloading " +:+ url +:+ "...") ;;
    r <- requests_get url ;;
    write_file dest (snd r) ;;
    print ("Saved to " +:+ dest)
  else ret tt.

(** The GHSL block: the test is on the extracted raster, the archive itself
    is never written to disk. *)
Definition fetch_ghsl : Py unit :=
  ex <- os_path_exists ghsl_tif ;;
  if negb ex then
    print "Downloading GHSL built-up dataset..." ;;
    r <- requests_get ghsl_url ;;
    z <- ZipFile (snd r) ;;
    extractall z data_dir ;;
    print "Unzipped GHSL data."
  else ret tt.

(** Step 3 of the script. *)
Definition fetch : Py unit :=
  download_file figshare_url mangrove_tif ;;
  fetch_ghsl.

(** The world after the announcement and the request. *)
Definition requested (msg url : string) (w : World) : World :=
  mkWorld (fs w) (requests w ++ [url]) (stdout w ++ [msg]).

(** The files on disk after the members [ms] have been extracted. *)
Definition extracted (dir : string) (ms : list (string * string))
    (f : gmap string string) : gmap string string :=
  fold_left (fun f m => match member_kind dir (fst m) with
                        | File targetpath => <[targetpath := snd m]> f
                        | _ => f
                        end) ms f.

(** The member is a file entry: its name does not end in a slash. *)
Definition is_file_entry (name : string) : bool :=
  match last_char name with
  | Some c => negb (Ascii.eqb c "/")
  | None => false
  end.


(** The disk takes the member: it is a directory entry, or a file entry
    whose target the disk accepts. *)
Definition extracts (dir : string) (m : string * string) : Prop :=
  match member_kind dir (fst m) with
  | Directory => True
  | File targetpath => disk env targetpath = None
  | NoName | DirClash => False
  end.

End WithEnv.

End Fetcher.

(** ** Vector layers over a geometry kernel *)

(** A coordinate reference system, named by its EPSG code. *)
Inductive CRS := EPSG (code : Z).

#[global] Instance CRS_eq_dec : EqDecision CRS.
Proof. solve_decision. Defined.

(** The geometry kernel the script reaches through shapely, GEOS and PROJ.
    These are third-party operations on single geometries; the script never
    looks inside a geometry, so they stay abstract.
    - [shape s]: [shapely.geometry.shape] on a mapping yielded by
      [rasterio.features.shapes]; [None] when it raises;
    - [transform src dst g]: the coordinates of [g] taken from CRS [src] to
      CRS [dst];
    - [buffer_geom d g]: [g.buffer(d)];
    - [intersection_geom a b]: the polygonal part of [a.intersection(b)];
    - [is_empty g]: [g.is_empty];
    - [area g]: [g.area], in the square of the unit of the CRS. *)
Class Kernel := {
  GeoJSON : Type;
  Geom : Type;
  shape : GeoJSON -> option Geom;
  transform : CRS -> CRS -> Geom -> Geom;
  buffer_geom : Q -> Geom -> Geom;
  intersection_geom : Geom -> Geom -> Geom;
  is_empty : Geom -> bool;
  area : Geom -> Q
}.

Section Layers.
Context {K : Kernel}.

(** A [GeoDataFrame] with its single geometry column and its CRS. *)
Record GeoDataFrame := mkGdf {
  geometry : list Geom;
  crs : CRS
}.

(** *** Vectorizer (step 6) *)

(** One turn of the loop of [shapes_to_gdf]: the list [geoms] after the
    pair [(s, v)] has been seen. *)
Definition shapes_step (geoms : list Geom) (sv : GeoJSON * Z) : list Geom :=
  let '(s, v) := sv in
  if (v =? 1)%Z then
    match shape s with
    | Some g => geoms ++ [g]        (* geoms.append(shape(s)) *)
    | None => geoms                 (* except Exception: continue *)
    end
  else geoms.

Definition shapes_to_gdf (shapes_gen : list (GeoJSON * Z)) (c : CRS)
  : GeoDataFrame :=
  mkGdf (fold_left shapes_step shapes_gen []) c.

(** What the spec says of one pair: kept when its value is 1 and its
    polygon can be built. *)
Definition kept (sv : GeoJSON * Z) : option Geom :=
  if bool_decide (snd sv = 1%Z) then shape (fst sv) else None.

(** *** Geometry processor (step 7) *)

(** Modelled from the spec: [GeoDataFrame.to_crs] is geopandas code, not
    in src/.  Sections 4.4 and 4.6: the layer is reprojected, that is, a new
    frame is made with every geometry transformed from the frame's CRS to
    the target and the CRS attribute set to the target. *)
Definition to_crs (target : CRS) (g : GeoDataFrame) : GeoDataFrame :=
  mkGdf (map (transform (crs g) target) (geometry g)) target.

(** Modelled from the spec: [GeoDataFrame.copy] is pandas code, not in
    src/.  As a value the copy has the geometries and the CRS of the
    original (the module [Store] below has it as a new object). *)
Definition copy (g : GeoDataFrame) : GeoDataFrame :=
  mkGdf (geometry g) (crs g).

(** Modelled from the spec: [GeoDataFrame.buffer] is geopandas code, not in
    src/.  Sections 3 and 4.4: each geometry is expanded by the distance;
    the result is the series of the buffered geometries, in order. *)
Definition buffer (d : Q) (g : GeoDataFrame) : list Geom :=
  map (buffer_geom d) (geometry g).

(** Modelled from the spec: the column assignment [gdf['geometry'] = series]
    is pandas code, not in src/.  The geometries are replaced, the CRS
    attribute of the frame stays. *)
Definition set_geometry (g : GeoDataFrame) (series : list Geom) : GeoDataFrame :=
  mkGdf series (crs g).

(** The rows that one feature [a] of the left frame gives against the
    right frame. *)
Definition overlay_row (a : Geom) (others : list Geom) : list Geom :=
  omap (fun b =>
          let c := intersection_geom a b in
          if is_empty c then None else Some c) others.

(** Modelled from the spec: [gpd.overlay(df1, df2, how='intersection')] is
    geopandas code, not code of the script.  Section 4.4: the overlay
    produces the polygons that exist in both inputs, with the standard
    polygon-clipping intersection semantics: every feature of [df1] is
    clipped by every feature of [df2], one output row per pair that shares
    area, rows ordered by the left then the right feature; the result is in
    the CRS of [df1]. *)
Definition overlay (df1 df2 : GeoDataFrame) : GeoDataFrame :=
  mkGdf (flat_map (fun a => overlay_row a (geometry df2)) (geometry df1))
        (crs df1).

(** The buffer distance of the script, [0.05]. *)
Definition buffer_distance : Q := 5 # 100.

Definition epsg_4326 : CRS := EPSG 4326.
Definition equal_area_crs : CRS := EPSG 6933.

(** The layers the script holds after step 7. *)
Record Layers := mkLayers {
  gdf_mangrove : GeoDataFrame;
  gdf_builtup : GeoDataFrame;
  mangrove_buffer : GeoDataFrame;
  overlap : GeoDataFrame
}.

(** Lines 80-81 as a function of the mangrove layer. *)
Definition make_buffer (gdf_mangrove : GeoDataFrame) : GeoDataFrame :=
  let mangrove_buffer := copy gdf_mangrove in
  set_geometry mangrove_buffer (buffer buffer_distance mangrove_buffer).

(** Steps 6 (second half) and 7: from the two shape sequences and the CRS
    of the two rasters to the four layers. *)
Definition geometry_stage
    (mangrove_shapes : list (GeoJSON * Z)) (mangrove_crs : CRS)
    (builtup_shapes : list (GeoJSON * Z)) (builtup_crs : CRS) : Layers :=
  let gdf_mangrove := shapes_to_gdf mangrove_shapes mangrove_crs in
  let gdf_builtup := shapes_to_gdf builtup_shapes builtup_crs in
  let gdf_mangrove := to_crs epsg_4326 gdf_mangrove in
  let gdf_builtup := to_crs epsg_4326 gdf_builtup in
  let mangrove_buffer := make_buffer gdf_mangrove in
  let overlap := overlay gdf_builtup mangrove_buffer in
  mkLayers gdf_mangrove gdf_builtup mangrove_buffer overlap.

(** The operations of the pipeline that take a layer to a layer. *)
Inductive LayerOp :=
| OpToCrs (target : CRS)
| OpCopy
| OpBuffer (d : Q)
| OpOverlayWith (other : GeoDataFrame).

Definition apply_op (g : GeoDataFrame) (op : LayerOp) : GeoDataFrame :=
  match op with
  | OpToCrs target => to_crs target g
  | OpCopy => copy g
  | OpBuffer d => set_geometry g (buffer d g)
  | OpOverlayWith other => overlay g other
  end.

(** The CRS a layer should carry after a run of operations: the target of
    the last reprojection, the CRS it started with when there is none. *)
Definition crs_after (start : CRS) (ops : list LayerOp) : CRS :=
  fold_left (fun c op => match op with OpToCrs t => t | _ => c end) ops start.

(** *** Statistics reporter (step 9) *)

(** Modelled from the spec: [gdf.area.sum()] is geopandas code, not in
    src/.  Section 4.6: the areas of the polygons of the layer, summed from
    0 in the order of the rows. *)
Definition area_sum (g : GeoDataFrame) : Q :=
  fold_left Qplus (map area (geometry g)) 0%Q.

Definition stats (L : Layers) : list (string * Q) :=
  let gdf_mangrove_eq := to_crs equal_area_crs (gdf_mangrove L) in
  let gdf_builtup_eq := to_crs equal_area_crs (gdf_builtup L) in
  let overlap_eq := to_crs equal_area_crs (overlap L) in
  [ ("Mangrove area (km²)", (area_sum gdf_mangrove_eq / 1000000)%Q);
    ("Built-up area (km²)", (area_sum gdf_builtup_eq / 1000000)%Q);
    ("Built-up within 5 km (km²)", (area_sum overlap_eq / 1000000)%Q) ].

End Layers.

(** *** Printing the statistics *)

(** The nearest integer to a non-negative rational, ties to even. *)
Definition round_half_even (q : Q) : Z :=
  let a := Qnum q in
  let b := Zpos (Qden q) in
  let fl := (a / b)%Z in
  let r := (a mod b)%Z in
  match (2 * r ?= b)%Z with
  | Lt => fl
  | Gt => (fl + 1)%Z
  | Eq => if Z.even fl then fl else (fl + 1)%Z
  end.

(** Python's [f"{v:.2f}"] for the double whose exact value is [v]: the
    decimal with two places nearest to that value, the even one at a
    tie; sign, integer part, a point, two digits. *)
Definition format_2f (v : Q) : string :=
  let n := round_half_even (Qabs v * 100) in
  (if Qle_bool 0 v then "" else "-")
  +:+ pretty (n / 100)%Z +:+ "."
  +:+ pretty ((n / 10) mod 10)%Z +:+ pretty (n mod 10)%Z.

Definition newline : string := String "010" "".

(** One line of the loop over [stats.items()]. *)
Definition stat_line (kv : string * Q) : string :=
  "  " +:+ fst kv +:+ ": " +:+ format_2f (snd kv).

Section Reporter.
Context {K : Kernel}.

(** Step 9 of the script. *)
Definition report (L : Layers) : Py unit :=
  print "Computing area statistics..." ;;
  let stats := stats L in
  print (newline +:+ "Area statistics (approx):") ;;
  for_each (fun kv => print (stat_line kv)) stats.

End Reporter.

(** ** The reporter over the floating-point numbers of the script *)

(** The numbers of step 9 are doubles; a finite double is held here as the
    rational it is exactly.  The two operations the reporter applies to
    them are third-party and stay abstract:
    - [series_sum l]: the double [Series.sum()] returns for the doubles
      [l] (numpy adds them in an order and with roundings of its own);
    - [float_div x y]: the double [x / y]. *)
Class FloatOps := {
  series_sum : list Q -> Q;
  float_div : Q -> Q -> Q
}.

(** Sums and quotients without rounding: [area_sum], [stats] and [report]
    above are the reporter over these. *)
Definition exact_ops : FloatOps := {|
  series_sum l := fold_left Qplus l 0%Q;
  float_div := Qdiv
|}.

(** The character of a decimal digit. *)
Definition digit_char (d : Z) : ascii := ascii_of_nat (48 + Z.to_nat d).

Module Reporter.

Section WithFloats.
Context {K : Kernel} {F : FloatOps}.

(** [gdf.area.sum()]. *)
Definition area_sum (g : GeoDataFrame) : Q :=
  series_sum (map area (geometry g)).

(** Lines 105 to 114. *)
Definition stats (L : Layers) : list (string * Q) :=
  let gdf_mangrove_eq := to_crs equal_area_crs (gdf_mangrove L) in
  let gdf_builtup_eq := to_crs equal_area_crs (gdf_builtup L) in
  let overlap_eq := to_crs equal_area_crs (overlap L) in
  [ ("Mangrove area (km²)", float_div (area_sum gdf_mangrove_eq) 1000000);
    ("Built-up area (km²)", float_div (area_sum gdf_builtup_eq) 1000000);
    ("Built-up within 5 km (km²)", float_div (area_sum overlap_eq) 1000000) ].

(** Step 9 of the script. *)
Definition report (L : Layers) : Py unit :=
  print "Computing area statistics..." ;;
  let stats := stats L in
  print (newline +:+ "Area statistics (approx):") ;;
  for_each (fun kv => print (stat_line kv)) stats.

End WithFloats.

End Reporter.

(** ** Frames as objects: the buffer step on a store *)

(** In Python the two names [gdf_mangrove] and [mangrove_buffer] hold
    references to frame objects, and line 81 assigns a column of the object
    in place.  Here the frames live in a store. *)
Module Store.

Section WithKernel.
Context {K : Kernel}.

(** [gdf.copy()]: a new object with the contents of the old one. *)
Definition obj_copy (l : nat) (σ : gmap nat GeoDataFrame)
  : option (nat * gmap nat GeoDataFrame) :=
  g ← σ !! l;
  let l' := fresh (dom σ) in
  Some (l', <[l' := copy g]> σ).

(** [gdf.buffer(d)]: reads the object, returns a series. *)
Definition obj_buffer (l : nat) (d : Q) (σ : gmap nat GeoDataFrame)
  : option (list Geom) :=
  g ← σ !! l;
  Some (buffer d g).

(** [gdf['geometry'] = series]: the object at [l] is changed in place. *)
Definition obj_setitem_geometry (l : nat) (series : list Geom)
    (σ : gmap nat GeoDataFrame) : option (gmap nat GeoDataFrame) :=
  g ← σ !! l;
  Some (<[l := set_geometry g series]> σ).

(** Lines 80-81. *)
Definition buffer_step (gdf_mangrove : nat) (σ : gmap nat GeoDataFrame)
  : option (nat * gmap nat GeoDataFrame) :=
  '(mangrove_buffer, σ1) ← obj_copy gdf_mangrove σ;
  series ← obj_buffer mangrove_buffer buffer_distance σ1;
  σ2 ← obj_setitem_geometry mangrove_buffer series σ1;
  Some (mangrove_buffer, σ2).

(** Not in the script: lines 80-81 with [.copy()] left out, so that
    [mangrove_buffer] is a second name of the mangrove frame.  Kept for
    comparison with [buffer_step]. *)
Definition buffer_step_aliased (gdf_mangrove : nat) (σ : gmap nat GeoDataFrame)
  : option (nat * gmap nat GeoDataFrame) :=
  let mangrove_buffer := gdf_mangrove in
  series ← obj_buffer mangrove_buffer buffer_distance σ;
  σ2 ← obj_setitem_geometry mangrove_buffer series σ;
  Some (mangrove_buffer, σ2).

End WithKernel.

End Store.

(** ** A kernel to run the pipeline on: unions of grid cells *)

(** Geometries are finite sets of unit cells of a grid whose step is the
    buffer distance (0.05 degree); every cell is worth one square
    kilometre.  Buffering is dilation by whole cells, reprojection keeps
    the cells. *)
Module Grid.

Definition Cell : Type := Z * Z.

Definition square (r : Z) (c : Cell) : gset Cell :=
  list_to_set
    (flat_map (fun dx => map (fun dy => (fst c + dx, snd c + dy)%Z)
                             (seqZ (- r) (2 * r + 1)))
              (seqZ (- r) (2 * r + 1))).

Definition dilate (r : Z) (g : gset Cell) : gset Cell :=
  if (r <=? 0)%Z then g else set_bind (square r) g.

Definition kernel : Kernel := {|
  GeoJSON := list Cell;
  Geom := gset Cell;
  shape cs := match cs with [] => None | _ => Some (list_to_set cs) end;
  transform _ _ g := g;
  buffer_geom d g := dilate (Qceiling (d / buffer_distance)) g;
  intersection_geom a b := a ∩ b;
  is_empty g := bool_decide (g = ∅);
  area g := (inject_Z (Z.of_nat (size g)) * 1000000)%Q
|}.

End Grid.

(** ** What the claims say of a failing fetch, in the claim's words *)



(** ** Small worlds to run the fetcher in *)

Module Samples.

Definition empty_world : World := mkWorld ∅ [] [].

(** A world where the mangrove raster has been fetched already. *)
Definition cached_world : World :=
  mkWorld {[ Fetcher.mangrove_tif := "II*" ]} [] [].

(** The server answers every request with 404 and a short body. *)
Definition env_not_found : Env :=
  mkEnv (fun _ => Response 404 "Not Found") (fun _ => None) (fun _ => None).

(** The server answers with the raster, the disk fills up after three
    bytes. *)
Definition env_disk_full : Env :=
  mkEnv (fun _ => Response 200 "II*GEOTIFF")
        (fun _ => Some (WriteFails 3)) (fun _ => None).

(** No route to the server. *)
Definition env_offline : Env :=
  mkEnv (fun _ => ConnectionFails) (fun _ => None) (fun _ => None).

End Samples.

(** ** Small rasters to run the pipeline on *)

Module GridSamples.

(** The shapes of a mangrove mask with two cells of class 1 that do not
    touch, and its background. *)
Definition two_mangroves : list (list Grid.Cell * Z) :=
  [ ([(0, 0)%Z], 1%Z); ([(2, 0)%Z], 1%Z); ([(5, 5)%Z], 0%Z) ].

(** The shapes of a mangrove mask with a single cell of class 1. *)
Definition one_mangrove : list (list Grid.Cell * Z) :=
  [ ([(0, 0)%Z], 1%Z); ([(5, 5)%Z], 0%Z) ].

(** The shapes of a built-up mask with one cell above 0, lying between the
    two mangrove cells. *)
Definition one_builtup : list (list Grid.Cell * Z) :=
  [ ([(1, 0)%Z], 1%Z); ([(5, 5)%Z], 0%Z) ].

Definition layers_two : @Layers Grid.kernel :=
  @geometry_stage Grid.kernel two_mangroves (EPSG 4326) one_builtup (EPSG 4326).

Definition layers_one : @Layers Grid.kernel :=
  @geometry_stage Grid.kernel one_mangrove (EPSG 4326) one_builtup (EPSG 4326).

(** A store with the mangrove frame of [layers_two] at address 0. *)
Definition store_two : gmap nat (@GeoDataFrame Grid.kernel) :=
  {[ 0%nat := @gdf_mangrove Grid.kernel layers_two ]}.

End GridSamples.

(** ** The shape of a number printed with two decimals *)

Definition is_digit (c : ascii) : bool :=
  (48 <=? nat_of_ascii c)%nat && (nat_of_ascii c <=? 57)%nat.

(** A text that ends in a point and exactly two digits. *)
Definition two_decimals (s : string) : Prop :=
  ∃ int d1 d2,
    s = int +:+ "." +:+ String d1 (String d2 "")
    ∧ is_digit d1 = true ∧ is_digit d2 = true.

(** ** Disjoint layers, in the claim's words *)

Section Disjointness.
Context {K : Kernel}.

(** Two geometries share no area. *)
Definition disjoint_geoms (a b : Geom) : Prop :=
  is_empty (intersection_geom a b) = true.

(** No geometry of the first layer shares area with one of the second. *)
Definition disjoint_layers (df1 df2 : GeoDataFrame) : Prop :=
  ∀ a b, a ∈ geometry df1 → b ∈ geometry df2 → disjoint_geoms a b.

(** The polygons of one layer share no area with each other. *)
Definition pairwise_disjoint (l : list Geom) : Prop :=
  ∀ i j a b, l !! i = Some a → l !! j = Some b → i ≠ j → disjoint_geoms a b.

(** What one pair of features gives to the overlay. *)
Definition clip_pair (ab : Geom * Geom) : option Geom :=
  let c := intersection_geom (fst ab) (snd ab) in
  if is_empty c then None else Some c.

End Disjointness.

(** ** More worlds for the fetcher *)

Module MoreSamples.

(** The server answers with an archive whose only member is a note: the
    raster the GHSL block tests for is not in it. *)
Definition env_wrong_archive : Env :=
  mkEnv (fun _ => Response 200 "PK")
        (fun _ => None)
        (fun _ => Some [("README.txt", "no raster here")]).

(** The server answers with an archive that holds the raster. *)
Definition env_good_archive : Env :=
  mkEnv (fun _ => Response 200 "PK")
        (fun _ => None)
        (fun _ =>
           Some [("README.txt", "GHSL");
                 ("GHS_BUILT_LDS2020_GLOBE_R2023A_3857_30ss_V1_0.tif", "II*")]).


End MoreSamples.

(** ** More shape sequences for the grid kernel *)

Module MoreGridSamples.

(** The shapes of a mangrove mask with no cell of class 1: one background
    region. *)
Definition no_mangrove : list (list Grid.Cell * Z) :=
  [ ([(5, 5)%Z], 0%Z) ].

Definition layers_none : @Layers Grid.kernel :=
  @geometry_stage Grid.kernel no_mangrove (EPSG 4326)
                  GridSamples.one_builtup (EPSG 4326).

End MoreGridSamples.

(** ** Steps 4 to 8 and the script as a whole *)

(** [bbox.bounds] of step 4: the box is built from its bounds in the order
    min-x, min-y, max-x, max-y and gives them back in that order. *)
Definition bbox_bounds : Q * Q * Q * Q :=
  (878 # 10, 215 # 10, 900 # 10, 228 # 10)%Q.

Section Folium.
Context {K : Kernel}.

(** The dictionary a [style_function] of the script returns; the functions
    of the script ignore the feature they are given. *)
Record Style := mkStyle {
  color : string;
  fillOpacity : Q
}.

(** What the script adds to the map. *)
Inductive Child :=
| GeoJson (data : GeoDataFrame) (name : string) (style_function : Style)
| LayerControl.

(** A [folium.Map] with the children added so far. *)
Record Map := mkMap {
  location : Q * Q;
  zoom_start : Z;
  tiles : string;
  children : list Child
}.

(** [child.add_to(m)]. *)
Definition add_to (c : Child) (m : Map) : Map :=
  mkMap (location m) (zoom_start m) (tiles m) (children m ++ [c]).

(** Step 8, up to the call of [m.save]. *)
Definition build_map (L : Layers) : Map :=
  let m := mkMap (22, 888 # 10)%Q 8 "CartoDB positron" [] in
  let m := add_to (GeoJson (gdf_mangrove L) "Mangroves"
                           (mkStyle "green" (5 # 10))) m in
  let m := add_to (GeoJson (gdf_builtup L) "Built-up areas"
                           (mkStyle "red" (4 # 10))) m in
  let m := add_to (GeoJson (mangrove_buffer L) "5 km buffer"
                           (mkStyle "blue" (2 # 10))) m in
  let m := add_to (GeoJson (overlap L) "Built-up within 5 km"
                           (mkStyle "purple" (6 # 10))) m in
  add_to LayerControl m.

End Folium.

(** The raster and map libraries, as far as the script uses them.  They
    are third-party code and stay abstract.
    - [open_rasterio bytes]: [rxr.open_rasterio(path, masked=True)] on a
      file with these bytes; [None] when the file is not a raster;
    - [clip_box r bounds]: [r.rio.clip_box] on the four bounds; [None] when
      it raises because no data lies in the bounds;
    - [rio_crs r]: [r.rio.crs];
    - [shapes_eq_1 r]: the sequence [features.shapes] yields for the mask
      [r.squeeze() == 1] cast to [uint8], with the transform of [r];
    - [shapes_gt_0 r]: the same for the mask [r.squeeze() > 0];
    - [render m ids]: the HTML that [m.save] writes; [ids] stands for the
      random identifiers folium gives the elements of the page in this
      run. *)
Class RasterLib {K : Kernel} := {
  Raster : Type;
  open_rasterio : string -> option Raster;
  clip_box : Raster -> Q * Q * Q * Q -> option Raster;
  rio_crs : Raster -> CRS;
  shapes_eq_1 : Raster -> list (GeoJSON * Z);
  shapes_gt_0 : Raster -> list (GeoJSON * Z);
  render : Map -> N -> string
}.

(** How a run of the script can end before its last line: with one of the
    exceptions of the fetcher and of file access, or with rioxarray's
    [NoDataInBounds]. *)
Inductive Failure :=
| PyExn (e : exn)
| NoDataInBounds.

Inductive Ending (A : Type) :=
| Done (a : A)
| Failed (f : Failure).
Arguments Done {A} a.
Arguments Failed {A} f.

Definition Script (A : Type) : Type := World -> Ending A * World.

(** A command of the fetcher's kind as a step of the script. *)
Definition step {A} (c : Py A) : Script A :=
  fun w =>
    match c w with
    | (Return a, w') => (Done a, w')
    | (Raise e, w') => (Failed (PyExn e), w')
    end.

Definition and_then {A B} (c : Script A) (k : A -> Script B) : Script B :=
  fun w =>
    match c w with
    | (Done a, w') => k a w'
    | (Failed f, w') => (Failed f, w')
    end.

Declare Scope script_scope.
Delimit Scope script_scope with script.
Notation "x <~ c ;;; k" := (and_then c (fun x => k))
  (at level 100, c at next level, right associativity) : script_scope.
Notation "c ;;; k" := (and_then c (fun _ => k))
  (at level 100, right associativity) : script_scope.

Module Main.

Section WithLibs.
Context {K : Kernel} {R : RasterLib} {F : FloatOps} (env : Env).
Local Open Scope script_scope.

Definition map_html : string := "sundarbans_mangrove_builtup_map.html".

(** One line of step 5: the file is opened (an [OSError] of rasterio when
    it is absent or is not a raster) and clipped to the box. *)
Definition load_clipped (path : string) : Script Raster :=
  fun w =>
    match fs w !! path with
    | None => (Failed (PyExn OSError), w)
    | Some bytes =>
        match open_rasterio bytes with
        | None => (Failed (PyExn OSError), w)
        | Some r =>
            match clip_box r bbox_bounds with
            | None => (Failed NoDataInBounds, w)
            | Some clipped => (Done clipped, w)
            end
        end
    end.

(** The script from step 3 to its last line, in a run in which folium
    draws the identifiers [ids].  Step 1 ([os.makedirs] with
    [exist_ok=True]) has no effect on a world that holds files only. *)
Definition main (ids : N) : Script unit :=
  step (Fetcher.fetch env) ;;;
  step (print "Loading and clipping rasters...") ;;;
  mangrove <~ load_clipped Fetcher.mangrove_tif ;;;
  builtup <~ load_clipped Fetcher.ghsl_tif ;;;
  step (print "Vectorizing rasters (this may take a minute)...") ;;;
  let mangrove_shapes := shapes_eq_1 mangrove in
  let builtup_shapes := shapes_gt_0 builtup in
  step (print "Preparing geometries for mapping...") ;;;
  let L := geometry_stage mangrove_shapes (rio_crs mangrove)
                          builtup_shapes (rio_crs builtup) in
  step (print "Creating Folium map...") ;;;
  let m := build_map L in
  step (Fetcher.write_file env map_html (render m ids)) ;;;
  step (print "Map saved as sundarbans_mangrove_builtup_map.html") ;;;
  step (Reporter.report L) ;;;
  step (print (newline +:+ "All done! Open 'sundarbans_mangrove_builtup_map.html' to view the interactive map.")).

(** The layers and the map a run computes from the two raster files. *)
Definition layers_of (mangrove builtup : Raster) : Layers :=
  geometry_stage (shapes_eq_1 mangrove) (rio_crs mangrove)
                 (shapes_gt_0 builtup) (rio_crs builtup).

(** The raster a file gives, when every call of [load_clipped] on it
    succeeds. *)
Definition readable (bytes : string) : option Raster :=
  r ← open_rasterio bytes; clip_box r bbox_bounds.

End WithLibs.

End Main.

(** ** What a run prints after the fetcher *)

Section Transcript.
Context {K : Kernel} {F : FloatOps}.

(** The lines of the reporter. *)
Definition report_lines (L : Layers) : list string :=
  [ "Computing area statistics..."; newline +:+ "Area statistics (approx):" ]
  ++ map stat_line (Reporter.stats L).

(** The lines of steps 5 to 9 of a run that reaches its end. *)
Definition run_lines (L : Layers) : list string :=
  [ "Loading and clipping rasters...";
    "Vectorizing rasters (this may take a minute)...";
    "Preparing geometries for mapping...";
    "Creating Folium map...";
    "Map saved as sundarbans_mangrove_builtup_map.html" ]
  ++ report_lines L
  ++ [ newline +:+ "All done! Open 'sundarbans_mangrove_builtup_map.html' to view the interactive map." ].

(** A world with more printed. *)
Definition printed (lines : list string) (w : World) : World :=
  mkWorld (fs w) (requests w) (stdout w ++ lines).

End Transcript.

(** ** A raster library and a server to run the script on *)

Module MainSamples.

(** Files that start with the TIFF mark are rasters; every mangrove raster
    has the shapes of [GridSamples.one_mangrove], every built-up raster
    those of [GridSamples.one_builtup]; the page counts the children of
    the map. *)
Definition raster_lib : @RasterLib Grid.kernel := {|
  Raster := string;
  open_rasterio bytes :=
    if String.prefix "II*" bytes then Some bytes else None;
  clip_box r _ := Some r;
  rio_crs _ := EPSG 4326;
  shapes_eq_1 _ := GridSamples.one_mangrove : list (@GeoJSON Grid.kernel * Z);
  shapes_gt_0 _ := GridSamples.one_builtup : list (@GeoJSON Grid.kernel * Z);
  render m ids :=
    "<html id=" +:+ pretty ids +:+ ">"
    +:+ pretty (length (@children Grid.kernel m)) +:+ "</html>"
|}.

(** The server has the mangrove raster and an archive with the GHSL
    raster; the disk takes everything. *)
Definition env_online : Env :=
  mkEnv (fun url =>
           if String.eqb url Fetcher.figshare_url
           then Response 200 "II*mangrove"
           else Response 200 "PK")
        (fun _ => None)
        (fun _ =>
           Some [("GHS_BUILT_LDS2020_GLOBE_R2023A_3857_30ss_V1_0.tif",
                  "II*built-up")]).

(** The same disk, no server. *)
Definition env_unplugged : Env :=
  mkEnv (fun _ => ConnectionFails) (disk env_online) (fun _ => None).

End MainSamples.

(** ** An archive the disk refuses half way *)

Module ArchiveSamples.



End ArchiveSamples.

(** * Theorems *)

(** ** Fetcher *)

Section FetcherFacts.
Import Fetcher.
Context (env : Env).

Lemma os_path_exists_present p w :
  is_Some (fs w !! p) → os_path_exists p w = (Return true, w).
Proof.
  intros Hp. unfold os_path_exists.
  by rewrite bool_decide_eq_true_2.
Qed.

Lemma os_path_exists_absent p w :
  fs w !! p = None → os_path_exists p w = (Return false, w).
Proof.
  intros Hp. unfold os_path_exists.
  rewrite bool_decide_eq_false_2; [done|].
  rewrite Hp. by intros [? ?].
Qed.

Lemma download_file_present url dest w :
  is_Some (fs w !! dest) → download_file env url dest w = (Return tt, w).
Proof.
  intros Hp. unfold download_file, bind.
  by rewrite os_path_exists_present.
Qed.

Lemma fetch_ghsl_present w :
  is_Some (fs w !! ghsl_tif) → fetch_ghsl env w = (Return tt, w).
Proof.
  intros Hp. unfold fetch_ghsl, bind.
  by rewrite os_path_exists_present.
Qed.

Lemma download_file_absent url dest w :
  fs w !! dest = None →
  download_file env url dest w =
    match http env url with
    | ConnectionFails =>
        (Raise RequestException,
         requested ("Downloading " +:+ url +:+ "...") url w)
    | Response st body =>
        (write_file env dest body ;; print ("Saved to " +:+ dest))
          (requested ("Downloading " +:+ url +:+ "...") url w)
    end.
Proof.
  intros Hp. unfold download_file, bind at 1.
  rewrite os_path_exists_absent; [|done]. simpl.
  unfold bind at 1, print at 1. simpl.
  unfold bind at 1, requests_get. simpl.
  by destruct (http env url).
Qed.

Lemma fetch_ghsl_absent w :
  fs w !! ghsl_tif = None →
  fetch_ghsl env w =
    let w1 := requested "Downloading GHSL built-up dataset..." ghsl_url w in
    match http env ghsl_url with
    | ConnectionFails => (Raise RequestException, w1)
    | Response st body =>
        match zip_members env body with
        | None => (Raise BadZipFile, w1)
        | Some ms =>
            (extractall env ms data_dir ;; print "Unzipped GHSL data.") w1
        end
    end.
Proof.
  intros Hp. unfold fetch_ghsl, bind at 1.
  rewrite os_path_exists_absent; [|done]. simpl.
  unfold bind at 1, print at 1. simpl.
  unfold bind at 1, requests_get. simpl.
  destruct (http env ghsl_url) as [|st body]; [done|]. simpl.
  unfold bind at 1, ZipFile. simpl.
  by destruct (zip_members env body).
Qed.



(** A member that is no directory entry and has no name left after the
    cleaning of its path ends the extraction as well, and so does a member
    without a name. *)
Lemma extractall_bad_name ms1 m ms2 dir w :
  Forall (extracts env dir) ms1 →
  member_kind dir (fst m) = DirClash ∨ member_kind dir (fst m) = NoName →
  ∃ e, extractall env (ms1 ++ m :: ms2) dir w =
         (Raise e, mkWorld (extracted dir ms1 (fs w)) (requests w) (stdout w)).
Proof.
  intros Hms Hk. revert w.
  induction Hms as [|m1 ms1 Hm1 _ IH]; intros w.
  - unfold extractall. simpl. unfold bind, extract_member.
    destruct Hk as [-> | ->]; eexists; by destruct w.
  - unfold extractall, extracted in *. simpl.
    unfold bind at 1, extract_member at 1. unfold extracts in Hm1.
    destruct (member_kind dir (fst m1)) as [| | |t]; try done.
    + unfold ret. destruct (IH w) as [e He]. exists e. rewrite He.
      by destruct w.
    + unfold write_file. rewrite Hm1.
      destruct (IH (mkWorld (<[t := snd m1]> (fs w)) (requests w) (stdout w)))
        as [e He].
      exists e. by rewrite He.
Qed.

End FetcherFacts.

(** C1: when the destination is already on disk, the fetcher does nothing:
    no request, the files as they were (and nothing printed).  This holds
    for [download_file] at every destination and for the GHSL block, whose
    destination is the extracted raster.  When the destination is absent
    the request is issued, once. *)
Theorem fetcher_skips_existing_destination (env : Env) (w : World) :
  (∀ url dest, is_Some (fs w !! dest) →
     Fetcher.download_file env url dest w = (Return tt, w))
  ∧ (is_Some (fs w !! Fetcher.ghsl_tif) →
     Fetcher.fetch_ghsl env w = (Return tt, w))
  ∧ (∀ url dest, fs w !! dest = None →
     requests (snd (Fetcher.download_file env url dest w)) = requests w ++ [url])
  ∧ (fs w !! Fetcher.ghsl_tif = None →
     requests (snd (Fetcher.fetch_ghsl env w))
       = requests w ++ [Fetcher.ghsl_url]).
Proof.
  repeat split.
  - intros url dest. apply download_file_present.
  - apply fetch_ghsl_present.
  - intros url dest Hp. rewrite download_file_absent; [|done].
    destruct (http env url) as [|st body]; [done|].
    unfold bind, Fetcher.write_file, print. simpl.
    by destruct (disk env dest) as [[|k]|].
  - intros Hp. rewrite fetch_ghsl_absent; [|done]. simpl.
    destruct (http env Fetcher.ghsl_url) as [|st body]; [done|].
    destruct (zip_members env body) as [ms|]; [|done].
    unfold bind.
    assert (Hreq : ∀ w0, requests (snd (Fetcher.extractall env ms Fetcher.data_dir w0))
                         = requests w0).
    { unfold Fetcher.extractall. induction ms as [|m ms IH]; intros w0; [done|].
      simpl. unfold bind at 1, Fetcher.extract_member at 1.
      destruct (Fetcher.member_kind _ _) as [| | |t]; simpl; try done.
      unfold Fetcher.write_file.
      destruct (disk env t) as [[|k]|]; simpl; [done|done|].
      by rewrite IH. }
    specialize (Hreq (Fetcher.requested "Downloading GHSL built-up dataset..."
                                Fetcher.ghsl_url w)).
    destruct (Fetcher.extractall env ms Fetcher.data_dir _) as [[[]|e] w2];
      simpl in *; by rewrite Hreq.
Qed.




(** ** Vectorizer *)

Section VectorizerFacts.
Context {K : Kernel}.

Lemma shapes_step_kept (geoms : list Geom) (sv : GeoJSON * Z) :
  shapes_step geoms sv = geoms ++ option_list (kept sv).
Proof.
  destruct sv as [s v]. unfold shapes_step, kept. simpl.
  destruct (Z.eqb_spec v 1) as [->|Hv].
  - rewrite bool_decide_eq_true_2; [|done].
    destruct (shape s); simpl; [done | by rewrite app_nil_r].
  - rewrite bool_decide_eq_false_2; [|done]. simpl. by rewrite app_nil_r.
Qed.

(** The loop, whatever [geoms] holds when it starts. *)
Lemma shapes_loop (shapes_gen : list (GeoJSON * Z)) (geoms : list Geom) :
  fold_left shapes_step shapes_gen geoms = geoms ++ omap kept shapes_gen.
Proof.
  revert geoms. induction shapes_gen as [|sv rest IH]; intros geoms; simpl.
  - by rewrite app_nil_r.
  - rewrite IH, shapes_step_kept, <- app_assoc. f_equal.
    by destruct (kept sv).
Qed.

Lemma shapes_to_gdf_geometry (shapes_gen : list (GeoJSON * Z)) (c : CRS) :
  geometry (shapes_to_gdf shapes_gen c) = omap kept shapes_gen.
Proof. unfold shapes_to_gdf. simpl. by rewrite shapes_loop. Qed.

End VectorizerFacts.

(** C5: the layer built from a sequence of (shape, value) pairs holds, in
    the order of the sequence, the polygon of every pair whose value is 1
    and whose polygon can be built, and nothing else.  A pair in the middle
    of the sequence adds its polygon or nothing; what the pairs before and
    after it give is the same either way, so a pair whose construction
    raises is as if it had not been there. *)
Theorem shapes_to_gdf_keeps_ones_that_build
    {K : Kernel} (shapes_gen : list (GeoJSON * Z)) (c : CRS) :
  geometry (shapes_to_gdf shapes_gen c) = omap kept shapes_gen
  ∧ (∀ g, g ∈ geometry (shapes_to_gdf shapes_gen c)
          ↔ ∃ s, (s, 1%Z) ∈ shapes_gen ∧ shape s = Some g)
  ∧ (∀ before sv after,
       geometry (shapes_to_gdf (before ++ sv :: after) c)
       = geometry (shapes_to_gdf before c) ++ option_list (kept sv)
           ++ geometry (shapes_to_gdf after c))
  ∧ (∀ before s v after, shape s = None →
       shapes_to_gdf (before ++ (s, v) :: after) c
       = shapes_to_gdf (before ++ after) c).
Proof.
  split; [apply shapes_to_gdf_geometry|]. split; [|split].
  - intros g. rewrite shapes_to_gdf_geometry, list_elem_of_omap. split.
    + intros [[s v] [Hin Hk]]. unfold kept in Hk. simpl in Hk.
      case_bool_decide as Hv; [|done]. subst v. by exists s.
    + intros [s [Hin Hs]]. exists (s, 1%Z). split; [done|].
      unfold kept. by rewrite bool_decide_eq_true_2.
  - intros before sv after. rewrite !shapes_to_gdf_geometry.
    rewrite omap_app. simpl. by destruct (kept sv).
  - intros before s v after Hs. unfold shapes_to_gdf. f_equal.
    rewrite !shapes_loop, !omap_app. simpl.
    unfold kept at 2. simpl. rewrite Hs. by case_bool_decide.
Qed.

(** ** Geometry processor *)

Section GeometryFacts.
Context {K : Kernel}.

Lemma crs_apply_op (g : GeoDataFrame) (op : LayerOp) :
  crs (apply_op g op) = match op with OpToCrs t => t | _ => crs g end.
Proof. by destruct op. Qed.

Lemma crs_fold_ops (ops : list LayerOp) (g : GeoDataFrame) :
  crs (fold_left apply_op ops g) = crs_after (crs g) ops.
Proof.
  revert g. induction ops as [|op ops IH]; intros g; simpl; [done|].
  by rewrite IH, crs_apply_op.
Qed.

Lemma crs_after_no_reprojection (c : CRS) (ops : list LayerOp) :
  Forall (fun op => ∀ t, op ≠ OpToCrs t) ops → crs_after c ops = c.
Proof.
  intros Hops. revert c. unfold crs_after.
  induction Hops as [|op ops Hop _ IH]; intros c; simpl; [done|].
  rewrite IH. destruct op; try done. by destruct (Hop target).
Qed.

End GeometryFacts.

(** C7: a layer leaves the vectorizer with the CRS of its raster.  Copying,
    buffering and overlaying keep the CRS attribute; only [to_crs] sets it,
    to its target.  So after any run of pipeline operations the layer
    carries the target of the last reprojection, or still the CRS of its
    raster when it was never reprojected.  In the script: both layers are in
    their raster's CRS until line 77-78 take them to EPSG:4326, the buffer
    and the overlap are in EPSG:4326 too. *)
Theorem crs_follows_raster_until_reprojected {K : Kernel} :
  (∀ (shapes_gen : list (GeoJSON * Z)) c, crs (shapes_to_gdf shapes_gen c) = c)
  ∧ (∀ (g : GeoDataFrame) op,
       crs (apply_op g op) = match op with OpToCrs t => t | _ => crs g end)
  ∧ (∀ (shapes_gen : list (GeoJSON * Z)) c ops,
       crs (fold_left apply_op ops (shapes_to_gdf shapes_gen c))
       = crs_after c ops)
  ∧ (∀ (shapes_gen : list (GeoJSON * Z)) c ops,
       Forall (fun op => ∀ t, op ≠ OpToCrs t) ops →
       crs (fold_left apply_op ops (shapes_to_gdf shapes_gen c)) = c)
  ∧ (∀ ms mc bs bc,
       let L := geometry_stage ms mc bs bc in
       gdf_mangrove L = apply_op (shapes_to_gdf ms mc) (OpToCrs epsg_4326)
       ∧ gdf_builtup L = apply_op (shapes_to_gdf bs bc) (OpToCrs epsg_4326)
       ∧ mangrove_buffer L
         = fold_left apply_op [OpCopy; OpBuffer buffer_distance] (gdf_mangrove L)
       ∧ overlap L = apply_op (gdf_builtup L) (OpOverlayWith (mangrove_buffer L))
       ∧ crs (mangrove_buffer L) = crs (gdf_mangrove L)
       ∧ crs (overlap L) = crs (gdf_builtup L)).
Proof.
  split; [done|]. split; [apply crs_apply_op|]. split; [|split].
  - intros shapes_gen c ops. by rewrite crs_fold_ops.
  - intros shapes_gen c ops Hops.
    by rewrite crs_fold_ops, crs_after_no_reprojection.
  - intros ms mc bs bc. simpl. done.
Qed.

(** C8: the buffer layer is the mangrove layer as it is after the
    reprojection to EPSG:4326, every polygon replaced by its buffer at
    distance 0.05; there is one buffer per mangrove polygon, and the
    distance is positive, in the unit of EPSG:4326 (degrees). *)
Theorem buffer_layer_after_reprojection
    {K : Kernel} (ms : list (GeoJSON * Z)) (mc : CRS)
    (bs : list (GeoJSON * Z)) (bc : CRS) :
  let L := geometry_stage ms mc bs bc in
  gdf_mangrove L = to_crs (EPSG 4326) (shapes_to_gdf ms mc)
  ∧ geometry (mangrove_buffer L)
    = map (buffer_geom buffer_distance) (geometry (gdf_mangrove L))
  ∧ geometry (mangrove_buffer L)
    = map (fun g => buffer_geom buffer_distance (transform mc (EPSG 4326) g))
          (omap kept ms)
  ∧ crs (mangrove_buffer L) = EPSG 4326
  ∧ (buffer_distance == 5 / 100)%Q
  ∧ (0 < buffer_distance)%Q.
Proof.
  simpl. split; [done|]. split; [done|]. split; [|done].
  unfold make_buffer, buffer, to_crs. simpl.
  by rewrite shapes_loop, map_map.
Qed.

(** ** The buffer step on the store *)

Section StoreFacts.
Context {K : Kernel}.

Lemma fresh_not_allocated (σ : gmap nat GeoDataFrame) (l : nat) :
  is_Some (σ !! l) → fresh (dom σ) ≠ l.
Proof.
  intros Hl Heq. apply elem_of_dom in Hl.
  rewrite <- Heq in Hl. by apply is_fresh in Hl.
Qed.

Lemma buffer_step_run (σ : gmap nat GeoDataFrame) (l : nat) (g : GeoDataFrame) :
  σ !! l = Some g →
  Store.buffer_step l σ
  = Some (fresh (dom σ), <[fresh (dom σ) := make_buffer g]> σ).
Proof.
  intros Hl. unfold Store.buffer_step, Store.obj_copy.
  rewrite Hl. simpl.
  unfold Store.obj_buffer. rewrite lookup_insert_eq. simpl.
  unfold Store.obj_setitem_geometry. rewrite lookup_insert_eq. simpl.
  by rewrite insert_insert_eq.
Qed.

(** Without the copy the assignment of line 81 lands in the mangrove
    frame. *)
Lemma buffer_step_aliased_run (σ : gmap nat GeoDataFrame) (l : nat) (g : GeoDataFrame) :
  σ !! l = Some g →
  Store.buffer_step_aliased l σ = Some (l, <[l := make_buffer g]> σ).
Proof.
  intros Hl. unfold Store.buffer_step_aliased, Store.obj_buffer.
  rewrite Hl. simpl.
  unfold Store.obj_setitem_geometry. rewrite Hl. simpl.
  by destruct g.
Qed.

End StoreFacts.

(** C10: lines 80-81 run on a store in which [gdf_mangrove] names a frame.
    They allocate a new frame, write the buffers into the new frame only,
    and leave the mangrove frame (geometries and CRS) and every other frame
    as they were.  The new frame is the pure [make_buffer] of the mangrove
    frame. *)
Theorem buffer_step_keeps_mangrove_layer
    {K : Kernel} (σ : gmap nat GeoDataFrame) (l : nat) (g : GeoDataFrame) :
  σ !! l = Some g →
  ∃ l' σ',
    Store.buffer_step l σ = Some (l', σ')
    ∧ l' ≠ l
    ∧ σ' !! l = Some g
    ∧ σ' !! l' = Some (make_buffer g)
    ∧ (∀ k, k ≠ l' → σ' !! k = σ !! k).
Proof.
  intros Hl. eexists _, _. split; [by apply buffer_step_run|].
  assert (Hne : fresh (dom σ) ≠ l) by (apply fresh_not_allocated; eauto).
  split; [done|]. split; [by rewrite lookup_insert_ne|].
  split; [by rewrite lookup_insert_eq|].
  intros k Hk. by rewrite lookup_insert_ne.
Qed.

(** The buffer step on the two-polygon mangrove frame at address 0. *)
Lemma buffer_step_keeps_mangrove_layer_witness :
  GridSamples.store_two !! 0%nat = Some (gdf_mangrove GridSamples.layers_two)
  ∧ ∃ l' σ',
      Store.buffer_step 0%nat GridSamples.store_two = Some (l', σ')
      ∧ l' ≠ 0%nat
      ∧ σ' !! 0%nat = Some (gdf_mangrove GridSamples.layers_two)
      ∧ σ' !! l' = Some (make_buffer (gdf_mangrove GridSamples.layers_two))
      ∧ (∀ k, k ≠ l' → σ' !! k = GridSamples.store_two !! k).
Proof.
  split; [reflexivity|].
  apply (buffer_step_keeps_mangrove_layer (K := Grid.kernel)
           GridSamples.store_two 0%nat).
  reflexivity.
Defined.

(** ** Statistics reporter *)

Lemma pretty_digit (k : Z) :
  (0 <= k < 10)%Z → ∃ c, pretty k = String c "" ∧ is_digit c = true.
Proof.
  intros Hk.
  assert (Hcases : k = 0%Z ∨ k = 1%Z ∨ k = 2%Z ∨ k = 3%Z ∨ k = 4%Z ∨ k = 5%Z
                   ∨ k = 6%Z ∨ k = 7%Z ∨ k = 8%Z ∨ k = 9%Z) by lia.
  repeat (destruct Hcases as [-> | Hcases]; [eexists; split; reflexivity|]).
  subst k. eexists; split; reflexivity.
Qed.

Lemma format_2f_two_decimals (v : Q) : two_decimals (format_2f v).
Proof.
  unfold two_decimals, format_2f.
  set (n := round_half_even (Qabs v * 100)).
  destruct (pretty_digit ((n / 10) mod 10)) as [d1 [Hd1 Hd1']];
    [apply Z.mod_pos_bound; lia|].
  destruct (pretty_digit (n mod 10)) as [d2 [Hd2 Hd2']];
    [apply Z.mod_pos_bound; lia|].
  exists ((if Qle_bool 0 v then "" else "-") +:+ pretty (n / 100)%Z), d1, d2.
  rewrite Hd1, Hd2. split; [|done].
  by destruct (Qle_bool 0 v).
Qed.

(** The integer chosen is one of the nearest to the rational. *)
Lemma round_half_even_nearest (q : Q) :
  (2 * Z.abs (round_half_even q * Zpos (Qden q) - Qnum q) <= Zpos (Qden q))%Z.
Proof.
  unfold round_half_even.
  pose proof (Z.div_mod (Qnum q) (Zpos (Qden q)) ltac:(lia)) as Hdm.
  pose proof (Z.mod_pos_bound (Qnum q) (Zpos (Qden q)) ltac:(lia)) as Hr.
  set (b := Zpos (Qden q)) in *. set (a := Qnum q) in *.
  set (fl := (a / b)%Z) in *. set (r := (a mod b)%Z) in *.
  destruct (Z.compare_spec (2 * r) b) as [Heq|Hlt|Hgt].
  - destruct (Z.even fl); lia.
  - lia.
  - lia.
Qed.

Section ReporterFacts.
Context {K : Kernel}.

Lemma area_sum_to_crs (target : CRS) (g : GeoDataFrame) :
  area_sum (to_crs target g)
  = fold_left Qplus
      (map (fun p => area (transform (crs g) target p)) (geometry g)) 0%Q.
Proof. unfold area_sum, to_crs. simpl. by rewrite map_map. Qed.

End ReporterFacts.

Lemma round_half_even_nonneg (q : Q) :
  (0 <= q)%Q → (0 <= round_half_even q)%Z.
Proof.
  unfold Qle, round_half_even. simpl. intros Hq.
  assert (0 <= Qnum q / Zpos (Qden q))%Z by (apply Z.div_pos; lia).
  destruct (_ ?= _)%Z; [destruct (Z.even _)|..]; lia.
Qed.

(** The integer chosen is within one half of the rational. *)
Lemma round_half_even_close (q : Q) :
  (Qabs (inject_Z (round_half_even q) - q) <= 1 # 2)%Q.
Proof.
  pose proof (round_half_even_nearest q) as Hn.
  destruct q as [a b]. unfold Qle, Qabs, Qminus, Qplus, Qopp, inject_Z.
  simpl in *. lia.
Qed.

(** At a tie the even neighbour is chosen. *)
Lemma round_half_even_tie (q : Q) :
  (Qabs (inject_Z (round_half_even q) - q) == 1 # 2)%Q →
  Z.even (round_half_even q) = true.
Proof.
  unfold round_half_even.
  pose proof (Z.div_mod (Qnum q) (Zpos (Qden q)) ltac:(lia)) as Hdm.
  pose proof (Z.mod_pos_bound (Qnum q) (Zpos (Qden q)) ltac:(lia)) as Hr.
  destruct q as [a b]. unfold Qeq, Qabs, Qminus, Qplus, Qopp, inject_Z.
  simpl in *.
  set (fl := (a / Zpos b)%Z) in *. set (r := (a mod Zpos b)%Z) in *.
  destruct (Z.compare_spec (2 * r) (Zpos b)) as [Heq|Hlt|Hgt].
  - destruct (Z.even fl) eqn:He; [done|]. intros _.
    rewrite Z.even_add, He. done.
  - intros Htie. lia.
  - intros Htie. lia.
Qed.

Lemma pretty_digit_char (k : Z) :
  (0 <= k < 10)%Z → pretty k = String (digit_char k) "".
Proof.
  intros Hk.
  assert (Hcases : k = 0%Z ∨ k = 1%Z ∨ k = 2%Z ∨ k = 3%Z ∨ k = 4%Z ∨ k = 5%Z
                   ∨ k = 6%Z ∨ k = 7%Z ∨ k = 8%Z ∨ k = 9%Z) by lia.
  repeat (destruct Hcases as [-> | Hcases]; [reflexivity|]).
  by subst k.
Qed.

(** What [format_2f] prints: the integer nearest to a hundred times the
    absolute value, the even one at a tie, written with a point before its
    last two digits, after the sign. *)
Lemma format_2f_nearest (v : Q) :
  ∃ n : Z,
    (0 <= n)%Z
    ∧ (Qabs (inject_Z n - Qabs v * 100) <= 1 # 2)%Q
    ∧ ((Qabs (inject_Z n - Qabs v * 100) == 1 # 2)%Q → Z.even n = true)
    ∧ format_2f v
      = (if Qle_bool 0 v then "" else "-")
        +:+ pretty (n / 100)%Z +:+ "."
        +:+ String (digit_char ((n / 10) mod 10))
              (String (digit_char (n mod 10)) "").
Proof.
  exists (round_half_even (Qabs v * 100)).
  split; [|split; [|split]].
  - apply round_half_even_nonneg.
    apply Qmult_le_0_compat; [apply Qabs_nonneg | done].
  - apply round_half_even_close.
  - apply round_half_even_tie.
  - unfold format_2f. set (n := round_half_even (Qabs v * 100)).
    rewrite (pretty_digit_char (n mod 10)); [|apply Z.mod_pos_bound; lia].
    rewrite (pretty_digit_char ((n / 10) mod 10));
      [|apply Z.mod_pos_bound; lia].
    by destruct (Qle_bool 0 v).
Qed.

(** Two doubles: the one nearest to 0.005 lies above it and prints 0.01;
    0.125 is a tie and prints 0.12. *)
Example format_2f_of_doubles :
  format_2f (5764607523034235 # 1152921504606846976) = "0.01"
  ∧ format_2f (1 # 8) = "0.12".
Proof. split; vm_compute; reflexivity. Qed.

Section FloatReporterFacts.
Context {K : Kernel} {F : FloatOps}.

Lemma float_area_sum_to_crs (target : CRS) (g : GeoDataFrame) :
  Reporter.area_sum (to_crs target g)
  = series_sum
      (map (fun p => area (transform (crs g) target p)) (geometry g)).
Proof. unfold Reporter.area_sum, to_crs. simpl. by rewrite map_map. Qed.

End FloatReporterFacts.

(** With sums and quotients that do not round, the reporter is [report]. *)
Lemma report_exact {K : Kernel} (L : Layers) :
  Reporter.report (F := exact_ops) L = report L.
Proof. reflexivity. Qed.

(** C9: the reporter takes the mangrove, built-up and overlap layers to
    EPSG:6933, sums the areas of the polygons of each, divides each sum by
    1e6, and prints, after its two headings, exactly three lines, one per
    layer, each made of the label and the number formatted with two
    decimals.  The sum and the quotient are the floating-point ones of the
    libraries, whatever their roundings; the text printed for a number is
    its nearest decimal with two places (the even one at a tie): sign,
    integer part, point and the two digits. *)
Theorem report_prints_three_areas
    {K : Kernel} {F : FloatOps} (L : Layers) (w : World) :
  let km2 (g : GeoDataFrame) : Q :=
    float_div
      (series_sum
         (map (fun p => area (transform (crs g) (EPSG 6933) p)) (geometry g)))
      1000000 in
  Reporter.stats L
  = [ ("Mangrove area (km²)", km2 (gdf_mangrove L));
      ("Built-up area (km²)", km2 (gdf_builtup L));
      ("Built-up within 5 km (km²)", km2 (overlap L)) ]
  ∧ Reporter.report L w
    = (Return tt,
       mkWorld (fs w) (requests w)
         (stdout w ++
            [ "Computing area statistics...";
              newline +:+ "Area statistics (approx):";
              "  Mangrove area (km²): " +:+ format_2f (km2 (gdf_mangrove L));
              "  Built-up area (km²): " +:+ format_2f (km2 (gdf_builtup L));
              "  Built-up within 5 km (km²): "
                +:+ format_2f (km2 (overlap L)) ]))
  ∧ (∀ v : Q, ∃ n : Z,
       (0 <= n)%Z
       ∧ (Qabs (inject_Z n - Qabs v * 100) <= 1 # 2)%Q
       ∧ ((Qabs (inject_Z n - Qabs v * 100) == 1 # 2)%Q → Z.even n = true)
       ∧ format_2f v
         = (if Qle_bool 0 v then "" else "-")
           +:+ pretty (n / 100)%Z +:+ "."
           +:+ String (digit_char ((n / 10) mod 10))
                 (String (digit_char (n mod 10)) "")).
Proof.
  intros km2.
  assert (Hstats : Reporter.stats L
    = [ ("Mangrove area (km²)", km2 (gdf_mangrove L));
        ("Built-up area (km²)", km2 (gdf_builtup L));
        ("Built-up within 5 km (km²)", km2 (overlap L)) ]).
  { unfold Reporter.stats, km2. by rewrite !float_area_sum_to_crs. }
  split; [done|]. split; [|apply format_2f_nearest].
  unfold Reporter.report. rewrite Hstats.
  cbv [bind print for_each stat_line ret]. simpl.
  by rewrite <- !app_assoc.
Qed.

(** ** Overlay *)

Section OverlayFacts.
Context {K : Kernel}.

Lemma overlay_row_disjoint (a : Geom) (l : list Geom) :
  (∀ b, b ∈ l → disjoint_geoms a b) → overlay_row a l = [].
Proof.
  unfold overlay_row, disjoint_geoms.
  induction l as [|b l IH]; intros Hd; simpl; [done|].
  rewrite (Hd b); [|by left]. apply IH. intros b' Hb'. apply Hd. by right.
Qed.

Lemma overlay_rows_disjoint (l1 l2 : list Geom) :
  (∀ a b, a ∈ l1 → b ∈ l2 → disjoint_geoms a b) →
  flat_map (fun a => overlay_row a l2) l1 = [].
Proof.
  induction l1 as [|a l1 IH]; intros Hd; simpl; [done|].
  rewrite overlay_row_disjoint.
  - apply IH. intros a' b Ha' Hb. apply Hd; [by right | done].
  - intros b Hb. apply Hd; [by left | done].
Qed.

Lemma overlay_row_app (a : Geom) (l1 l2 : list Geom) :
  overlay_row a (l1 ++ l2) = overlay_row a l1 ++ overlay_row a l2.
Proof. unfold overlay_row. apply omap_app. Qed.

Lemma overlay_row_pairs (a : Geom) (l : list Geom) :
  overlay_row a l = omap clip_pair (map (fun b => (a, b)) l).
Proof.
  unfold overlay_row. induction l as [|b l IH]; [done|].
  simpl. unfold clip_pair at 1. simpl.
  destruct (is_empty (intersection_geom a b)); [exact IH | f_equal; exact IH].
Qed.

(** One row per pair of features that share area, left feature first. *)
Lemma overlay_by_pairs (df1 df2 : GeoDataFrame) :
  geometry (overlay df1 df2)
  = omap clip_pair (list_prod (geometry df1) (geometry df2)).
Proof.
  unfold overlay. simpl.
  induction (geometry df1) as [|a l1 IH]; simpl; [done|].
  by rewrite omap_app, IH, overlay_row_pairs.
Qed.

Lemma overlay_row_alone (a : Geom) (before after : list Geom) :
  intersection_geom a a = a →
  is_empty a = false →
  (∀ b, b ∈ before ++ after → disjoint_geoms a b) →
  overlay_row a (before ++ a :: after) = [a].
Proof.
  intros Hidem Hne Hd.
  rewrite overlay_row_app. change (a :: after) with ([a] ++ after).
  rewrite overlay_row_app.
  rewrite (overlay_row_disjoint a before), (overlay_row_disjoint a after).
  - unfold overlay_row. simpl. by rewrite Hidem, Hne.
  - intros b Hb. apply Hd. set_solver.
  - intros b Hb. apply Hd. set_solver.
Qed.

Lemma pairwise_disjoint_middle (before after : list Geom) (a b : Geom) :
  pairwise_disjoint (before ++ a :: after) →
  b ∈ before ++ after → disjoint_geoms a b.
Proof.
  intros Hpd Hb. apply elem_of_app in Hb as [Hb|Hb].
  - apply list_elem_of_lookup in Hb as [i Hi].
    pose proof (lookup_lt_Some _ _ _ Hi) as Hlt.
    apply (Hpd (length before) i).
    + by rewrite list_lookup_middle.
    + by rewrite lookup_app_l.
    + lia.
  - apply list_elem_of_lookup in Hb as [i Hi].
    apply (Hpd (length before) (length before + S i)%nat).
    + by rewrite list_lookup_middle.
    + rewrite lookup_app_r; [|lia].
      by replace (length before + S i - length before)%nat with (S i) by lia.
    + lia.
Qed.

Lemma overlay_rows_self (before l : list Geom) :
  (∀ g, intersection_geom g g = g) →
  (∀ a, a ∈ l → is_empty a = false) →
  pairwise_disjoint (before ++ l) →
  flat_map (fun a => overlay_row a (before ++ l)) l = l.
Proof.
  intros Hidem. revert before.
  induction l as [|a l IH]; intros before Hne Hpd; simpl; [done|].
  rewrite overlay_row_alone; [| done | apply Hne; by left
                              | intros b Hb; by eapply pairwise_disjoint_middle].
  simpl. f_equal.
  replace (before ++ a :: l) with ((before ++ [a]) ++ l)
    by (by rewrite <- app_assoc).
  apply IH.
  - intros b Hb. apply Hne. by right.
  - by rewrite <- app_assoc.
Qed.

End OverlayFacts.

(** C2, as the overlay has it.  The overlay of two layers that share no
    area is empty.  The overlay of a layer with itself gives the layer back
    when its polygons are not empty and share no area with each other, as
    the polygons traced from one mask do; in general it has one row per
    pair of features that share area, so a layer whose polygons overlap
    comes back with more rows than it has.  A geometry is taken to be its
    own intersection with itself. *)
Theorem overlay_disjoint_and_self {K : Kernel} :
  (∀ g : Geom, intersection_geom g g = g) →
  (∀ df1 df2, disjoint_layers df1 df2 → geometry (overlay df1 df2) = [])
  ∧ (∀ df, (∀ a, a ∈ geometry df → is_empty a = false) →
           pairwise_disjoint (geometry df) → overlay df df = df)
  ∧ (∀ df1 df2, geometry (overlay df1 df2)
                = omap clip_pair (list_prod (geometry df1) (geometry df2))).
Proof.
  intros Hidem. split; [|split].
  - intros df1 df2 Hd. unfold overlay. simpl.
    by apply overlay_rows_disjoint.
  - intros [l c] Hne Hpd. unfold overlay. simpl in *. f_equal.
    by apply (overlay_rows_self []).
  - apply overlay_by_pairs.
Qed.

(** The grid kernel meets the assumption of the theorem; the mangrove
    layer of the two-cell sample shares no area with the built-up layer,
    and its two polygons share none with each other. *)
Lemma overlay_disjoint_and_self_witness :
  (∀ g : @Geom Grid.kernel, intersection_geom g g = g)
  ∧ geometry (overlay (gdf_mangrove GridSamples.layers_two)
                      (gdf_builtup GridSamples.layers_two)) = []
  ∧ overlay (gdf_mangrove GridSamples.layers_two)
            (gdf_mangrove GridSamples.layers_two)
    = gdf_mangrove GridSamples.layers_two.
Proof.
  assert (Hidem : ∀ g : @Geom Grid.kernel, intersection_geom g g = g).
  { intros g. simpl. apply (idemp_L (∩)). }
  destruct (overlay_disjoint_and_self (K := Grid.kernel) Hidem)
    as (Hdisj & Hself & _).
  split; [exact Hidem|]. split.
  - apply Hdisj. intros a b Ha Hb.
    change (a ∈ [ ({[ (0, 0)%Z ]} : gset Grid.Cell) ; {[ (2, 0)%Z ]} ]) in Ha.
    change (b ∈ [ ({[ (1, 0)%Z ]} : gset Grid.Cell) ]) in Hb.
    apply list_elem_of_singleton in Hb as ->.
    apply elem_of_cons in Ha as [-> | Ha];
      [| apply list_elem_of_singleton in Ha as ->]; reflexivity.
  - apply Hself.
    + intros a Ha.
      change (a ∈ [ ({[ (0, 0)%Z ]} : gset Grid.Cell) ; {[ (2, 0)%Z ]} ]) in Ha.
      apply elem_of_cons in Ha as [-> | Ha];
        [| apply list_elem_of_singleton in Ha as ->]; reflexivity.
    + intros i j a b Hi Hj Hij.
      destruct i as [|[|i]], j as [|[|j]]; simpl in Hi, Hj;
        try discriminate; try (by destruct Hij);
        injection Hi as <-; injection Hj as <-; reflexivity.
Defined.

(** C2 as stated fails on the buffer layer of the two-cell sample: its two
    buffers overlap, and the overlay of the layer with itself has four rows
    where the layer has two. *)
Lemma self_overlay_of_overlapping_layer :
  length (geometry (mangrove_buffer GridSamples.layers_two)) = 2%nat
  ∧ length (geometry (overlay (mangrove_buffer GridSamples.layers_two)
                              (mangrove_buffer GridSamples.layers_two))) = 4%nat
  ∧ overlay (mangrove_buffer GridSamples.layers_two)
            (mangrove_buffer GridSamples.layers_two)
    ≠ mangrove_buffer GridSamples.layers_two.
Proof.
  split; [reflexivity|]. split; [vm_compute; reflexivity|].
  intros Heq.
  apply (f_equal (fun df => length (geometry df))) in Heq.
  vm_compute in Heq. discriminate Heq.
Qed.

(** ** Areas *)

Section AreaFacts.
Context {K : Kernel}.

Lemma fold_left_Qplus_shift (l : list Q) (a : Q) :
  (fold_left Qplus l a == a + fold_left Qplus l 0)%Q.
Proof.
  revert a. induction l as [|x l IH]; intros a; simpl.
  - ring.
  - rewrite IH, (IH (0 + x)%Q). ring.
Qed.

Lemma area_sum_cons (a : Geom) (l : list Geom) (c : CRS) :
  (area_sum (mkGdf (a :: l) c) == area a + area_sum (mkGdf l c))%Q.
Proof.
  unfold area_sum. simpl. rewrite fold_left_Qplus_shift. ring.
Qed.

(** With a single polygon in the right layer no area of the left layer is
    counted twice: the overlay has at most the area of the left layer, in
    any CRS, provided areas are not negative and clipping does not add
    area. *)
Lemma overlay_area_single_right (df1 df2 : GeoDataFrame) (b : Geom) (target : CRS) :
  (∀ c1 c2 g, 0 <= area (transform c1 c2 g))%Q →
  (∀ c1 c2 a b, area (transform c1 c2 (intersection_geom a b))
                <= area (transform c1 c2 a))%Q →
  geometry df2 = [b] →
  (area_sum (to_crs target (overlay df1 df2))
   <= area_sum (to_crs target df1))%Q.
Proof.
  intros Hpos Hclip Hb. destruct df1 as [l1 c1]. unfold overlay, to_crs.
  rewrite Hb. simpl.
  induction l1 as [|a l1 IH]; simpl.
  - apply Qle_refl.
  - rewrite (area_sum_cons (transform c1 target a)).
    destruct (is_empty (intersection_geom a b)); simpl.
    + rewrite <- (Qplus_0_l (area_sum _)) at 1.
      apply Qplus_le_compat; [apply Hpos | apply IH].
    + rewrite (area_sum_cons (transform c1 target (intersection_geom a b))).
      apply Qplus_le_compat; [apply Hclip | apply IH].
Qed.

End AreaFacts.

(** C4 at a mask with two mangrove cells: the built-up cell lies within
    the buffer of both, the overlay has one row per buffer, and the area
    reported as built-up within 5 km is twice the built-up area. *)
Lemma overlap_counted_once_per_buffer :
  geometry (gdf_builtup GridSamples.layers_two)
  = [ ({[ (1, 0)%Z ]} : gset Grid.Cell) ]
  ∧ geometry (overlap GridSamples.layers_two)
    = [ ({[ (1, 0)%Z ]} : gset Grid.Cell); {[ (1, 0)%Z ]} ]
  ∧ map stat_line (stats GridSamples.layers_two)
    = [ "  Mangrove area (km²): 2.00";
        "  Built-up area (km²): 1.00";
        "  Built-up within 5 km (km²): 2.00" ]
  ∧ (area_sum (to_crs equal_area_crs (gdf_builtup GridSamples.layers_two))
     < area_sum (to_crs equal_area_crs (overlap GridSamples.layers_two)))%Q.
Proof.
  split; [reflexivity|]. split; [vm_compute; reflexivity|].
  split; vm_compute; reflexivity.
Qed.

(** With one mangrove cell there is one buffer, and the same built-up cell
    is counted once. *)
Lemma overlap_single_mangrove :
  map stat_line (stats GridSamples.layers_one)
  = [ "  Mangrove area (km²): 1.00";
      "  Built-up area (km²): 1.00";
      "  Built-up within 5 km (km²): 1.00" ].
Proof. vm_compute. reflexivity. Qed.

(** The same in any kernel: a built-up polygon that lies within two
    buffers comes out of the overlay twice. *)
Lemma overlay_two_covering_buffers
    {K : Kernel} (a b1 b2 : Geom) (c1 c2 : CRS) :
  intersection_geom a b1 = a →
  intersection_geom a b2 = a →
  is_empty a = false →
  overlay (mkGdf [a] c1) (mkGdf [b1; b2] c2) = mkGdf [a; a] c1.
Proof.
  intros H1 H2 Hne. unfold overlay, overlay_row. simpl.
  by rewrite H1, H2, Hne.
Qed.

(** * Further properties of the script *)

(** ** Fetcher: what a run leaves for the next run *)

Section FetcherMore.
Import Fetcher.
Context (env : Env).

Lemma write_file_frame dest data w :
  requests (snd (write_file env dest data w)) = requests w
  ∧ stdout (snd (write_file env dest data w)) = stdout w
  ∧ (∀ p, p ≠ dest → fs (snd (write_file env dest data w)) !! p = fs w !! p)
  ∧ (∀ p, is_Some (fs w !! p) →
          is_Some (fs (snd (write_file env dest data w)) !! p)).
Proof.
  unfold write_file.
  destruct (disk env dest) as [[|k]|]; simpl; repeat split; try done.
  - intros p Hp. by rewrite lookup_insert_ne.
  - intros p Hp. destruct (decide (p = dest)) as [->|Hne].
    + rewrite lookup_insert_eq. eauto.
    + by rewrite lookup_insert_ne.
  - intros p Hp. by rewrite lookup_insert_ne.
  - intros p Hp. destruct (decide (p = dest)) as [->|Hne].
    + rewrite lookup_insert_eq. eauto.
    + by rewrite lookup_insert_ne.
Qed.

(** The extraction logs nothing, prints nothing, removes nothing, and
    changes no path but the targets of the file members. *)
Lemma extractall_frame ms dir w :
  requests (snd (extractall env ms dir w)) = requests w
  ∧ stdout (snd (extractall env ms dir w)) = stdout w
  ∧ (∀ p, fs (snd (extractall env ms dir w)) !! p = fs w !! p
          ∨ ∃ m, m ∈ ms ∧ member_kind dir (fst m) = File p)
  ∧ (∀ p, is_Some (fs w !! p) →
          is_Some (fs (snd (extractall env ms dir w)) !! p)).
Proof.
  revert w. unfold extractall.
  induction ms as [|m ms IH]; intros w; simpl.
  - repeat split; eauto.
  - unfold bind, extract_member at 1 3 5 7.
    destruct (member_kind dir (fst m)) as [| | |t] eqn:Hk; simpl.
    + repeat split; eauto.
    + destruct (IH w) as (Hr' & Ho' & Hf' & Hk').
      split; [done|]. split; [done|]. split; [|done].
      intros p. destruct (Hf' p) as [Hp | (m' & Hm' & Hp)]; [by left|].
      right. exists m'. split; [by right | done].
    + repeat split; eauto.
    + destruct (write_file_frame t (snd m) w) as (Hr & Ho & Hf & Hkeep).
      destruct (write_file env t (snd m) w) as [[[]|e] w1] eqn:Hw;
        simpl in *.
      * destruct (IH w1) as (Hr' & Ho' & Hf' & Hk').
        split; [congruence|]. split; [congruence|]. split.
        -- intros p. destruct (Hf' p) as [Hp | (m' & Hm' & Hp)].
           ++ destruct (decide (p = t)) as [->|Hne].
              ** right. exists m. split; [by left | done].
              ** left. by rewrite Hp, Hf.
           ++ right. exists m'. split; [by right | done].
        -- intros p Hp. apply Hk', Hkeep, Hp.
      * split; [done|]. split; [done|]. split; [|done].
        intros p. destruct (decide (p = t)) as [->|Hne].
        -- right. exists m. split; [by left | done].
        -- left. by apply Hf.
Qed.



Lemma member_kind_File dir name p :
  member_kind dir name = File p
  ↔ is_file_entry name = true ∧ arcname name ≠ ""
    ∧ p = os_path_join dir (arcname name).
Proof.
  unfold member_kind, is_file_entry.
  destruct (last_char name) as [c|]; [|split; [done | by intros (? & _)]].
  destruct (Ascii.eqb c "/"); simpl; [split; [done | by intros (? & _)]|].
  destruct (String.eqb_spec (arcname name) "") as [Hz|Hz].
  - split; [done | by intros (_ & ? & _)].
  - split; [by intros [= <-] | by intros (_ & _ & ->)].
Qed.


End FetcherMore.

Section FetcherRuns.
Import Fetcher.
Context (env : Env).

Lemma download_file_frame url dest w :
  (∀ p, p ≠ dest → fs (snd (download_file env url dest w)) !! p = fs w !! p)
  ∧ (∀ p, is_Some (fs w !! p) →
          is_Some (fs (snd (download_file env url dest w)) !! p)).
Proof.
  destruct (fs w !! dest) as [old|] eqn:Hd.
  - rewrite download_file_present; [done | by rewrite Hd].
  - rewrite download_file_absent; [|done].
    destruct (http env url) as [|st body]; [done|].
    unfold bind.
    destruct (write_file_frame env dest body
                (requested ("Downloading " +:+ url +:+ "...") url w))
      as (_ & _ & Hf & Hk).
    destruct (write_file env dest body _) as [[[]|e] w1]; simpl in *; done.
Qed.

Lemma download_file_requests url dest w :
  requests (snd (download_file env url dest w))
  = requests w ++ (if bool_decide (is_Some (fs w !! dest)) then [] else [url]).
Proof.
  case_bool_decide as Hd.
  - rewrite download_file_present; [|done]. simpl. by rewrite app_nil_r.
  - assert (Hn : fs w !! dest = None).
    { destruct (fs w !! dest); [by destruct Hd; eauto | done]. }
    rewrite download_file_absent; [|done].
    destruct (http env url) as [|st body]; [done|].
    unfold bind, write_file, print. simpl.
    by destruct (disk env dest) as [[|k]|].
Qed.

Lemma fetch_ghsl_requests w :
  requests (snd (fetch_ghsl env w))
  = requests w
    ++ (if bool_decide (is_Some (fs w !! ghsl_tif)) then [] else [ghsl_url]).
Proof.
  case_bool_decide as Hd.
  - rewrite fetch_ghsl_present; [|done]. simpl. by rewrite app_nil_r.
  - assert (Hn : fs w !! ghsl_tif = None).
    { destruct (fs w !! ghsl_tif); [by destruct Hd; eauto | done]. }
    rewrite fetch_ghsl_absent; [|done]. simpl.
    destruct (http env ghsl_url) as [|st body]; [done|].
    destruct (zip_members env body) as [ms|]; [|done].
    unfold bind.
    destruct (extractall_frame env ms data_dir
                (requested "Downloading GHSL built-up dataset..." ghsl_url w))
      as (Hr & _).
    destruct (extractall env ms data_dir _) as [[[]|e] w1]; simpl in *;
      by rewrite Hr.
Qed.

Lemma fetch_ghsl_frame w p :
  (fs (snd (fetch_ghsl env w)) !! p = fs w !! p
   ∨ ∃ st body ms m,
       http env ghsl_url = Response st body
       ∧ zip_members env body = Some ms
       ∧ m ∈ ms ∧ member_kind data_dir (fst m) = File p)
  ∧ (is_Some (fs w !! p) → is_Some (fs (snd (fetch_ghsl env w)) !! p)).
Proof.
  destruct (fs w !! ghsl_tif) as [old|] eqn:Hd.
  - rewrite fetch_ghsl_present; [|by rewrite Hd]. split; [by left | done].
  - rewrite fetch_ghsl_absent; [|done]. simpl.
    destruct (http env ghsl_url) as [|st body] eqn:Hh; [split; [by left|done]|].
    destruct (zip_members env body) as [ms|] eqn:Hz; [|split; [by left|done]].
    unfold bind.
    destruct (extractall_frame env ms data_dir
                (requested "Downloading GHSL built-up dataset..." ghsl_url w))
      as (_ & _ & Hf & Hk).
    destruct (extractall env ms data_dir _) as [[[]|e] w1];
      cbn [fst snd fs requested] in *.
    + split; [|apply Hk]. destruct (Hf p) as [Hp | (m & Hm & Hp)]; [by left|].
      right. by exists st, body, ms, m.
    + split; [|apply Hk]. destruct (Hf p) as [Hp | (m & Hm & Hp)]; [by left|].
      right. by exists st, body, ms, m.
Qed.

End FetcherRuns.

(** X1: when [download_file] returns normally the destination is on disk,
    whether it was there before or has just been written, and from then on
    the function is a no-op at that destination: in any environment and for
    any URL it returns at once and leaves the world as it is. *)
Theorem download_file_returns_then_cached
    (env : Env) (url dest : string) (w w' : World) :
  Fetcher.download_file env url dest w = (Return tt, w') →
  is_Some (fs w' !! dest)
  ∧ (∀ env' url', Fetcher.download_file env' url' dest w' = (Return tt, w')).
Proof.
  intros Hrun.
  assert (Hd : is_Some (fs w' !! dest)).
  { destruct (fs w !! dest) as [old|] eqn:Hd.
    - rewrite download_file_present in Hrun; [|by rewrite Hd].
      injection Hrun as <-. by rewrite Hd.
    - rewrite download_file_absent in Hrun; [|done].
      destruct (http env url) as [|st body]; [done|].
      unfold bind, Fetcher.write_file, print in Hrun.
      destruct (disk env dest) as [[|k]|]; simpl in Hrun; try done.
      injection Hrun as <-. simpl. rewrite lookup_insert_eq. eauto. }
  split; [done|]. intros env' url'. by apply download_file_present.
Qed.

Lemma download_file_returns_then_cached_witness :
  Fetcher.download_file Samples.env_not_found Fetcher.figshare_url
    Fetcher.mangrove_tif Samples.empty_world
  = (Return tt,
     mkWorld (<[Fetcher.mangrove_tif := "Not Found"]> ∅)
             [Fetcher.figshare_url]
             ["Downloading " +:+ Fetcher.figshare_url +:+ "...";
              "Saved to " +:+ Fetcher.mangrove_tif])
  ∧ ∀ env' url',
      Fetcher.download_file env' url' Fetcher.mangrove_tif
        (mkWorld (<[Fetcher.mangrove_tif := "Not Found"]> ∅)
                 [Fetcher.figshare_url]
                 ["Downloading " +:+ Fetcher.figshare_url +:+ "...";
                  "Saved to " +:+ Fetcher.mangrove_tif])
      = (Return tt,
         mkWorld (<[Fetcher.mangrove_tif := "Not Found"]> ∅)
                 [Fetcher.figshare_url]
                 ["Downloading " +:+ Fetcher.figshare_url +:+ "...";
                  "Saved to " +:+ Fetcher.mangrove_tif]).
Proof.
  split; [reflexivity|].
  apply (download_file_returns_then_cached Samples.env_not_found
           Fetcher.figshare_url Fetcher.mangrove_tif Samples.empty_world).
  reflexivity.
Defined.

(** X2: when [download_file] raises, the destination was absent and one
    request was made.  If the failure left nothing at the destination (the
    request or the open failed) the next run requests the URL again.  If it
    left the first bytes of a refused write, the next run takes them for
    the file: it returns at once, in any environment, and never downloads
    again. *)
Theorem failed_download_next_run
    (env : Env) (url dest : string) (w w' : World) (e : exn) :
  Fetcher.download_file env url dest w = (Raise e, w') →
  fs w !! dest = None
  ∧ requests w' = requests w ++ [url]
  ∧ match fs w' !! dest with
    | None =>
        fs w' = fs w
        ∧ ∀ env', requests (snd (Fetcher.download_file env' url dest w'))
                  = requests w' ++ [url]
    | Some part =>
        (∃ st body k, http env url = Response st body
                      ∧ disk env dest = Some (WriteFails k)
                      ∧ part = substring 0 k body)
        ∧ ∀ env' url',
            Fetcher.download_file env' url' dest w' = (Return tt, w')
    end.
Proof.
  intros Hrun.
  destruct (fs w !! dest) as [old|] eqn:Hd.
  { rewrite download_file_present in Hrun; [done | by rewrite Hd]. }
  split; [done|].
  rewrite download_file_absent in Hrun; [|done].
  destruct (http env url) as [|st body] eqn:Hh.
  - injection Hrun as <- <-. simpl. split; [done|]. rewrite Hd.
    split; [done|]. intros env'.
    rewrite download_file_requests. simpl.
    rewrite bool_decide_eq_false_2; [done|]. rewrite Hd. by intros [? ?].
  - unfold bind, Fetcher.write_file, print in Hrun.
    destruct (disk env dest) as [[|k]|] eqn:Hk; simpl in Hrun; try done.
    + injection Hrun as <- <-. simpl. split; [done|]. rewrite Hd.
      split; [done|]. intros env'.
      rewrite download_file_requests. simpl.
      rewrite bool_decide_eq_false_2; [done|]. rewrite Hd. by intros [? ?].
    + injection Hrun as <- <-. simpl. split; [done|].
      rewrite lookup_insert_eq. split; [by exists st, body, k|].
      intros env' url'. apply download_file_present. simpl.
      rewrite lookup_insert_eq. eauto.
Qed.

Lemma failed_download_next_run_witness :
  Fetcher.download_file Samples.env_disk_full Fetcher.figshare_url
    Fetcher.mangrove_tif Samples.empty_world
  = (Raise OSError,
     mkWorld (<[Fetcher.mangrove_tif := "II*"]> ∅) [Fetcher.figshare_url]
             ["Downloading " +:+ Fetcher.figshare_url +:+ "..."])
  ∧ ∀ env' url',
      Fetcher.download_file env' url' Fetcher.mangrove_tif
        (mkWorld (<[Fetcher.mangrove_tif := "II*"]> ∅) [Fetcher.figshare_url]
                 ["Downloading " +:+ Fetcher.figshare_url +:+ "..."])
      = (Return tt,
         mkWorld (<[Fetcher.mangrove_tif := "II*"]> ∅) [Fetcher.figshare_url]
                 ["Downloading " +:+ Fetcher.figshare_url +:+ "..."]).
Proof.
  split; [reflexivity|].
  pose proof (failed_download_next_run Samples.env_disk_full
                Fetcher.figshare_url Fetcher.mangrove_tif
                Samples.empty_world _ OSError eq_refl) as (_ & _ & H).
  exact (proj2 H).
Defined.

(** X3: step 3 removes no file, and the only paths whose content it can
    change are the mangrove raster and the targets of the file members of
    the archive the server sent: the data directory joined with the
    member's name as [zipfile] cleans it (no empty, ['.'] or ['..']
    component, so no leading slash). *)
Theorem fetch_touches_only_its_files (env : Env) (w : World) (p : string) :
  (fs (snd (Fetcher.fetch env w)) !! p = fs w !! p
   ∨ p = Fetcher.mangrove_tif
   ∨ ∃ st body ms m,
       http env Fetcher.ghsl_url = Response st body
       ∧ zip_members env body = Some ms
       ∧ m ∈ ms
       ∧ Fetcher.is_file_entry (fst m) = true
       ∧ Fetcher.arcname (fst m) ≠ ""
       ∧ p = Fetcher.os_path_join Fetcher.data_dir
               (Fetcher.arcname (fst m)))
  ∧ ∀ q, is_Some (fs w !! q) → is_Some (fs (snd (Fetcher.fetch env w)) !! q).
Proof.
  unfold Fetcher.fetch, bind.
  destruct (download_file_frame env Fetcher.figshare_url
              Fetcher.mangrove_tif w) as (Hf & Hk).
  destruct (Fetcher.download_file env Fetcher.figshare_url
              Fetcher.mangrove_tif w) as [[[]|e] w1]; cbn [fst snd] in *.
  - split.
    + destruct (decide (p = Fetcher.mangrove_tif)) as [->|Hne];
        [by right; left|].
      destruct (fetch_ghsl_frame env w1 p)
        as ([Hp | (st & body & ms & m & Hh & Hz & Hm & Hkind)] & _).
      * left. by rewrite Hp, Hf.
      * right; right. apply member_kind_File in Hkind as (? & ? & ?).
        by exists st, body, ms, m.
    + intros q Hq. by apply fetch_ghsl_frame, Hk.
  - split; [|done].
    destruct (decide (p = Fetcher.mangrove_tif)) as [->|Hne];
      [by right; left | left; by apply Hf].
Qed.

(** X4: step 3 makes at most two requests, to the two URLs of the script
    and in this order: the mangrove URL when the mangrove raster is absent,
    then the GHSL URL when the first download did not raise and the GHSL
    raster is absent.  An exception of the first download ends step 3
    before the GHSL block is reached. *)
Theorem fetch_requests_in_order (env : Env) (w : World) :
  (∀ e, fst (Fetcher.download_file env Fetcher.figshare_url
               Fetcher.mangrove_tif w) = Raise e →
        Fetcher.fetch env w
        = (Raise e, snd (Fetcher.download_file env Fetcher.figshare_url
                           Fetcher.mangrove_tif w)))
  ∧ requests (snd (Fetcher.fetch env w))
    = requests w
      ++ (if bool_decide (is_Some (fs w !! Fetcher.mangrove_tif))
          then [] else [Fetcher.figshare_url])
      ++ match fst (Fetcher.download_file env Fetcher.figshare_url
                      Fetcher.mangrove_tif w) with
         | Raise _ => []
         | Return _ =>
             if bool_decide (is_Some (fs w !! Fetcher.ghsl_tif))
             then [] else [Fetcher.ghsl_url]
         end.
Proof.
  unfold Fetcher.fetch, bind.
  pose proof (download_file_requests env Fetcher.figshare_url
                Fetcher.mangrove_tif w) as Hr.
  destruct (download_file_frame env Fetcher.figshare_url
              Fetcher.mangrove_tif w) as (Hf & _).
  specialize (Hf Fetcher.ghsl_tif ltac:(discriminate)).
  destruct (Fetcher.download_file env Fetcher.figshare_url
              Fetcher.mangrove_tif w) as [[[]|e] w1]; simpl in *.
  - split; [done|].
    by rewrite fetch_ghsl_requests, Hr, Hf, <- app_assoc.
  - split; [by intros e' [= ->]|]. by rewrite Hr, app_nil_r.
Qed.



(** ** Vectorizer and geometry stage: edge cases and composition *)

Section StageFacts.
Context {K : Kernel}.

Lemma elem_of_kept (shapes_gen : list (GeoJSON * Z)) (g : Geom) :
  g ∈ omap kept shapes_gen ↔ ∃ s, (s, 1%Z) ∈ shapes_gen ∧ shape s = Some g.
Proof.
  rewrite list_elem_of_omap. split.
  - intros [[s v] [Hin Hk]]. unfold kept in Hk. simpl in Hk.
    case_bool_decide as Hv; [|done]. subst v. by exists s.
  - intros [s [Hin Hs]]. exists (s, 1%Z). split; [done|].
    unfold kept. by rewrite bool_decide_eq_true_2.
Qed.

Lemma omap_kept_nil (shapes_gen : list (GeoJSON * Z)) :
  omap kept shapes_gen = [] ↔ ∀ s, (s, 1%Z) ∈ shapes_gen → shape s = None.
Proof.
  split.
  - intros Hnil s Hin. destruct (shape s) as [g|] eqn:Hs; [|done].
    assert (Hg : g ∈ omap kept shapes_gen) by (apply elem_of_kept; eauto).
    rewrite Hnil in Hg. by apply elem_of_nil in Hg.
  - intros Hnone. destruct (omap kept shapes_gen) as [|g l] eqn:Hl; [done|].
    assert (Hg : g ∈ omap kept shapes_gen) by (rewrite Hl; by left).
    apply elem_of_kept in Hg as (s & Hin & Hs).
    rewrite (Hnone s Hin) in Hs. discriminate Hs.
Qed.

Lemma omap_kept_length (shapes_gen : list (GeoJSON * Z)) :
  (length (omap kept shapes_gen)
   ≤ length (filter (fun sv => snd sv = 1%Z) shapes_gen))%nat.
Proof.
  induction shapes_gen as [|[s v] l IH]; [done|].
  change (omap kept ((s, v) :: l))
    with (match kept (s, v) with
          | Some g => g :: omap kept l
          | None => omap kept l
          end).
  rewrite filter_cons. unfold kept at 1. simpl.
  case_bool_decide as Hv.
  - rewrite decide_True; [|done]. destruct (shape s); simpl; lia.
  - by rewrite decide_False.
Qed.

Lemma overlay_rows_empty_right (l : list Geom) :
  flat_map (fun a => overlay_row a []) l = [].
Proof. induction l as [|a l IH]; simpl; [done | exact IH]. Qed.

Lemma elem_of_flat_map_rows (g : Geom) (l1 l2 : list Geom) :
  g ∈ flat_map (fun a => overlay_row a l2) l1
  ↔ ∃ a b, a ∈ l1 ∧ b ∈ l2 ∧ g = intersection_geom a b ∧ is_empty g = false.
Proof.
  rewrite list_elem_of_In, in_flat_map. split.
  - intros (a & Ha & Hg). apply list_elem_of_In in Ha, Hg.
    unfold overlay_row in Hg. apply list_elem_of_omap in Hg as (b & Hb & Hc).
    destruct (is_empty (intersection_geom a b)) eqn:He; [done|].
    injection Hc as <-. by exists a, b.
  - intros (a & b & Ha & Hb & -> & He). exists a.
    split; [by apply list_elem_of_In|]. apply list_elem_of_In.
    unfold overlay_row. apply list_elem_of_omap. exists b. split; [done|].
    by rewrite He.
Qed.

End StageFacts.

(** X6: the layer that [shapes_to_gdf] returns is empty exactly when no
    pair of the sequence has value 1 and a polygon that can be built (an
    empty sequence, a mask without the class, or failures only).  It never
    has more polygons than the sequence has pairs of value 1. *)
Theorem shapes_to_gdf_empty_iff
    {K : Kernel} (shapes_gen : list (GeoJSON * Z)) (c : CRS) :
  (geometry (shapes_to_gdf shapes_gen c) = []
   ↔ ∀ s, (s, 1%Z) ∈ shapes_gen → shape s = None)
  ∧ (length (geometry (shapes_to_gdf shapes_gen c))
     ≤ length (filter (fun sv => snd sv = 1%Z) shapes_gen))%nat.
Proof.
  rewrite shapes_to_gdf_geometry. split.
  - apply omap_kept_nil.
  - apply omap_kept_length.
Qed.

(** X7: the overlap layer, read through the whole stage.  A polygon is in
    it exactly when it is the non-empty intersection of a built-up polygon
    (value 1, built, taken to EPSG:4326) with the 0.05 buffer of a mangrove
    polygon (value 1, built, taken to EPSG:4326).  The built-up layer is
    the left operand: it is clipped by the buffers, not buffered itself. *)
Theorem overlap_members
    {K : Kernel} (ms : list (GeoJSON * Z)) (mc : CRS)
    (bs : list (GeoJSON * Z)) (bc : CRS) (g : Geom) :
  g ∈ geometry (overlap (geometry_stage ms mc bs bc))
  ↔ ∃ sb sm b m,
      (sb, 1%Z) ∈ bs ∧ shape sb = Some b
      ∧ (sm, 1%Z) ∈ ms ∧ shape sm = Some m
      ∧ g = intersection_geom
              (transform bc (EPSG 4326) b)
              (buffer_geom buffer_distance (transform mc (EPSG 4326) m))
      ∧ is_empty g = false.
Proof.
  unfold geometry_stage, overlay, make_buffer, buffer, to_crs. simpl.
  rewrite !shapes_loop. simpl. rewrite elem_of_flat_map_rows. split.
  - intros (a & b' & Ha & Hb' & -> & He).
    apply list_elem_of_fmap in Ha as (b & -> & Hb).
    apply list_elem_of_fmap in Hb' as (m' & -> & Hm').
    apply list_elem_of_fmap in Hm' as (m & -> & Hm).
    apply elem_of_kept in Hb as (sb & Hsb & Hb).
    apply elem_of_kept in Hm as (sm & Hsm & Hm).
    by exists sb, sm, b, m.
  - intros (sb & sm & b & m & Hsb & Hb & Hsm & Hm & -> & He).
    exists (transform bc (EPSG 4326) b),
           (buffer_geom buffer_distance (transform mc (EPSG 4326) m)).
    split; [|split; [|done]].
    + apply list_elem_of_fmap. exists b. split; [done|].
      apply elem_of_kept. eauto.
    + apply list_elem_of_fmap. exists (transform mc (EPSG 4326) m).
      split; [done|]. apply list_elem_of_fmap. exists m. split; [done|].
      apply elem_of_kept. eauto.
Qed.

(** X8: with no mangrove polygon (no pair of value 1 that builds) the
    mangrove layer, the buffer layer and the overlap layer are empty, the
    run goes on all the same, and the reporter prints 0.00 for the mangrove
    area and for the built-up area within 5 km. *)
Theorem no_mangrove_polygon_zero_stats
    {K : Kernel} (ms : list (GeoJSON * Z)) (mc : CRS)
    (bs : list (GeoJSON * Z)) (bc : CRS) :
  (∀ s, (s, 1%Z) ∈ ms → shape s = None) →
  geometry (gdf_mangrove (geometry_stage ms mc bs bc)) = []
  ∧ geometry (mangrove_buffer (geometry_stage ms mc bs bc)) = []
  ∧ geometry (overlap (geometry_stage ms mc bs bc)) = []
  ∧ ∀ w, ∃ builtup_line,
      report (geometry_stage ms mc bs bc) w
      = (Return tt,
         mkWorld (fs w) (requests w)
           (stdout w ++
              [ "Computing area statistics...";
                newline +:+ "Area statistics (approx):";
                "  Mangrove area (km²): 0.00";
                builtup_line;
                "  Built-up within 5 km (km²): 0.00" ])).
Proof.
  intros Hnone. apply omap_kept_nil in Hnone.
  assert (Hm : geometry (gdf_mangrove (geometry_stage ms mc bs bc)) = []).
  { unfold geometry_stage, to_crs. simpl. by rewrite shapes_loop, Hnone. }
  assert (Hb : geometry (mangrove_buffer (geometry_stage ms mc bs bc)) = []).
  { unfold geometry_stage, make_buffer, buffer, to_crs. simpl.
    by rewrite shapes_loop, Hnone. }
  assert (Ho : geometry (overlap (geometry_stage ms mc bs bc)) = []).
  { change (flat_map
              (fun a => overlay_row a
                 (geometry (mangrove_buffer (geometry_stage ms mc bs bc))))
              (geometry (gdf_builtup (geometry_stage ms mc bs bc))) = []).
    rewrite Hb. apply overlay_rows_empty_right. }
  split; [done|]. split; [done|]. split; [done|].
  intros w. eexists. unfold report, stats.
  rewrite !area_sum_to_crs, Hm, Ho.
  cbv [bind print for_each stat_line ret]. simpl.
  rewrite <- !app_assoc. simpl. reflexivity.
Qed.

Lemma no_mangrove_polygon_zero_stats_witness :
  geometry (overlap MoreGridSamples.layers_none) = []
  ∧ ∃ builtup_line,
      report MoreGridSamples.layers_none Samples.empty_world
      = (Return tt,
         mkWorld ∅ []
           [ "Computing area statistics...";
             newline +:+ "Area statistics (approx):";
             "  Mangrove area (km²): 0.00";
             builtup_line;
             "  Built-up within 5 km (km²): 0.00" ]).
Proof.
  destruct (no_mangrove_polygon_zero_stats (K := Grid.kernel)
              MoreGridSamples.no_mangrove (EPSG 4326)
              GridSamples.one_builtup (EPSG 4326))
    as (_ & _ & Ho & Hrep).
  { intros s Hin. apply list_elem_of_singleton in Hin. discriminate Hin. }
  split; [exact Ho|]. exact (Hrep Samples.empty_world).
Defined.

(** ** Areas: when the reported numbers are bounded and positive *)

Section SumFacts.

Lemma fold_left_Qplus_nonneg (l : list Q) :
  Forall (fun x => 0 <= x)%Q l → (0 <= fold_left Qplus l 0)%Q.
Proof.
  induction 1 as [|x l Hx _ IH]; simpl; [apply Qle_refl|].
  rewrite fold_left_Qplus_shift.
  apply (Qle_trans _ (0 + 0)%Q); [done|].
  apply Qplus_le_compat; [|done]. by rewrite Qplus_0_l.
Qed.

Lemma fold_left_Qplus_pos (l : list Q) :
  Forall (fun x => 0 < x)%Q l → l ≠ [] → (0 < fold_left Qplus l 0)%Q.
Proof.
  intros Hl Hne. destruct Hl as [|x l Hx Hl]; [done|]. simpl.
  rewrite fold_left_Qplus_shift.
  apply (Qlt_le_trans _ ((0 + x) + 0)%Q).
  - by rewrite Qplus_0_r, Qplus_0_l.
  - apply Qplus_le_compat; [apply Qle_refl|].
    apply fold_left_Qplus_nonneg.
    eapply Forall_impl; [exact Hl|]. intros y Hy. by apply Qlt_le_weak.
Qed.

End SumFacts.

(** The grid kernel has the properties of areas that the theorems below
    assume. *)
Section GridLaws.

Lemma grid_area_nonneg (c1 c2 : CRS) (g : @Geom Grid.kernel) :
  (0 <= @area Grid.kernel (@transform Grid.kernel c1 c2 g))%Q.
Proof.
  simpl. apply Qmult_le_0_compat; [|done].
  change 0%Q with (inject_Z 0). rewrite <- Zle_Qle. lia.
Qed.

Lemma grid_area_clip (c1 c2 : CRS) (a b : @Geom Grid.kernel) :
  (@area Grid.kernel (@transform Grid.kernel c1 c2
                        (@intersection_geom Grid.kernel a b))
   <= @area Grid.kernel (@transform Grid.kernel c1 c2 a))%Q.
Proof.
  simpl. apply Qmult_le_compat_r; [|done].
  rewrite <- Zle_Qle. apply inj_le, subseteq_size.
  apply intersection_subseteq_l.
Qed.

Lemma grid_area_pos (c1 c2 : CRS) (g : @Geom Grid.kernel) :
  @is_empty Grid.kernel g = false →
  (0 < @area Grid.kernel (@transform Grid.kernel c1 c2 g))%Q.
Proof.
  simpl. intros He. apply bool_decide_eq_false_1 in He.
  apply Qmult_lt_0_compat; [|done].
  change 0%Q with (inject_Z 0). rewrite <- Zlt_Qlt.
  assert (size g ≠ 0%nat) by (by intros ?%size_empty_inv%leibniz_equiv).
  apply (inj_lt 0). apply Nat.neq_0_lt_0. exact H.
Qed.

End GridLaws.

(** X9: when the mangrove mask gives exactly one polygon there is one
    buffer, no built-up land is counted twice, and the number reported as
    built-up within 5 km is at most the number reported as built-up area.
    Areas are taken to be non-negative and clipping not to add area. *)
Theorem single_mangrove_overlap_bounded
    {K : Kernel} (ms : list (GeoJSON * Z)) (mc : CRS)
    (bs : list (GeoJSON * Z)) (bc : CRS) (m : Geom) :
  (∀ c1 c2 g, 0 <= area (transform c1 c2 g))%Q →
  (∀ c1 c2 a b, area (transform c1 c2 (intersection_geom a b))
                <= area (transform c1 c2 a))%Q →
  omap kept ms = [m] →
  (area_sum (to_crs equal_area_crs (overlap (geometry_stage ms mc bs bc)))
     / 1000000
   <= area_sum (to_crs equal_area_crs
                  (gdf_builtup (geometry_stage ms mc bs bc))) / 1000000)%Q.
Proof.
  intros Hpos Hclip Hm.
  apply Qmult_le_compat_r; [|done].
  apply (overlay_area_single_right _ _
           (buffer_geom buffer_distance (transform mc epsg_4326 m)));
    [done | done |].
  unfold make_buffer, buffer, to_crs. simpl. by rewrite shapes_loop, Hm.
Qed.

Lemma single_mangrove_overlap_bounded_witness :
  (area_sum (to_crs equal_area_crs (overlap GridSamples.layers_one))
     / 1000000
   <= area_sum (to_crs equal_area_crs (gdf_builtup GridSamples.layers_one))
      / 1000000)%Q.
Proof.
  apply (single_mangrove_overlap_bounded (K := Grid.kernel)
           GridSamples.one_mangrove (EPSG 4326)
           GridSamples.one_builtup (EPSG 4326)
           ({[ (0, 0)%Z ]} : gset Grid.Cell)).
  - apply grid_area_nonneg.
  - apply grid_area_clip.
  - reflexivity.
Defined.

(** X10: the overlay of two layers has positive total area, in any CRS,
    exactly when some feature of the left layer shares area with some
    feature of the right one; otherwise the total is not positive (the
    overlay is empty and the sum is 0).  A non-empty geometry is taken to
    have positive area. *)
Theorem overlap_area_positive_iff
    {K : Kernel} (df1 df2 : GeoDataFrame) (target : CRS) :
  (∀ c1 c2 g, is_empty g = false → 0 < area (transform c1 c2 g))%Q →
  (0 < area_sum (to_crs target (overlay df1 df2)))%Q
  ↔ ∃ a b, a ∈ geometry df1 ∧ b ∈ geometry df2
           ∧ is_empty (intersection_geom a b) = false.
Proof.
  intros Hpos. rewrite area_sum_to_crs.
  assert (Hall : Forall (fun x => 0 < x)%Q
            (map (fun p => area (transform (crs (overlay df1 df2)) target p))
                 (geometry (overlay df1 df2)))).
  { apply Forall_forall. intros x Hx.
    apply list_elem_of_fmap in Hx as (g & -> & Hg).
    apply elem_of_flat_map_rows in Hg as (a & b & _ & _ & _ & He).
    by apply Hpos. }
  split.
  - intros Hlt.
    destruct (geometry (overlay df1 df2)) as [|g l] eqn:Hrows.
    { simpl in Hlt. by apply Qlt_irrefl in Hlt. }
    assert (Hg : g ∈ geometry (overlay df1 df2)) by (rewrite Hrows; by left).
    apply elem_of_flat_map_rows in Hg as (a & b & Ha & Hb & -> & He).
    by exists a, b.
  - intros (a & b & Ha & Hb & He).
    apply fold_left_Qplus_pos; [done|].
    assert (Hg : intersection_geom a b ∈ geometry (overlay df1 df2)).
    { apply elem_of_flat_map_rows. by exists a, b. }
    intros Hnil. apply fmap_nil_inv in Hnil. rewrite Hnil in Hg.
    by apply elem_of_nil in Hg.
Qed.

Lemma overlap_area_positive_iff_witness :
  (0 < area_sum (to_crs equal_area_crs
                   (overlay (gdf_builtup GridSamples.layers_one)
                            (mangrove_buffer GridSamples.layers_one))))%Q.
Proof.
  apply (overlap_area_positive_iff (K := Grid.kernel)
           (gdf_builtup GridSamples.layers_one)
           (mangrove_buffer GridSamples.layers_one) equal_area_crs).
  - apply grid_area_pos.
  - exists ({[ (1, 0)%Z ]} : gset Grid.Cell),
           (Grid.dilate 1 {[ (0, 0)%Z ]}).
    split; [by left|]. split; [by left|]. reflexivity.
Defined.

(** ** The script as a whole *)

Section MainFacts.
Context {K : Kernel} {R : RasterLib} {F : FloatOps}.

Lemma report_run (L : Layers) (w : World) :
  Reporter.report L w = (Return tt, printed (report_lines L) w).
Proof.
  unfold Reporter.report, report_lines, printed, Reporter.stats.
  cbv [bind print for_each stat_line ret]. simpl.
  by rewrite <- !app_assoc.
Qed.

Lemma load_clipped_world (path : string) (w : World) :
  snd (Main.load_clipped path w) = w.
Proof.
  unfold Main.load_clipped.
  destruct (fs w !! path) as [bytes|]; [|done].
  destruct (open_rasterio bytes) as [r|]; [|done].
  by destruct (clip_box r bbox_bounds).
Qed.

Lemma load_clipped_done (path : string) (w w' : World) (r : Raster) :
  Main.load_clipped path w = (Done r, w')
  ↔ w' = w ∧ ∃ bytes, fs w !! path = Some bytes
                      ∧ Main.readable bytes = Some r.
Proof.
  unfold Main.load_clipped, Main.readable. split.
  - destruct (fs w !! path) as [bytes|]; [|done].
    destruct (open_rasterio bytes) as [r0|] eqn:Ho; [|done].
    destruct (clip_box r0 bbox_bounds) as [c|] eqn:Hc; [|done].
    intros [= -> ->]. split; [done|]. exists bytes. split; [done|].
    rewrite Ho. simpl. done.
  - intros (-> & bytes & -> & Hr).
    destruct (open_rasterio bytes) as [r0|]; [|done]. simpl in Hr.
    by rewrite Hr.
Qed.

Lemma load_clipped_ok (path : string) (w : World) (bytes : string) (r : Raster) :
  fs w !! path = Some bytes →
  Main.readable bytes = Some r →
  Main.load_clipped path w = (Done r, w).
Proof. intros Hp Hr. apply load_clipped_done. eauto. Qed.

(** A run with both rasters on disk and readable, on a disk that takes
    the map. *)
Lemma main_cached (env : Env) (ids : N) (w : World)
    (bm bb : string) (rm rb : Raster) :
  fs w !! Fetcher.mangrove_tif = Some bm →
  fs w !! Fetcher.ghsl_tif = Some bb →
  Main.readable bm = Some rm →
  Main.readable bb = Some rb →
  disk env Main.map_html = None →
  Main.main env ids w
  = (Done tt,
     mkWorld (<[Main.map_html
                  := render (build_map (Main.layers_of rm rb)) ids]> (fs w))
             (requests w)
             (stdout w ++ run_lines (Main.layers_of rm rb))).
Proof.
  intros Hm Hb Hrm Hrb Hdisk.
  unfold Main.main, and_then at 1, step at 1, Fetcher.fetch, bind.
  rewrite download_file_present; [|by rewrite Hm].
  rewrite fetch_ghsl_present; [|by rewrite Hb].
  unfold and_then at 1, step at 1, print at 1.
  unfold and_then at 1.
  rewrite (load_clipped_ok Fetcher.mangrove_tif _ bm rm); [|done|done].
  unfold and_then at 1.
  rewrite (load_clipped_ok Fetcher.ghsl_tif _ bb rb); [|done|done].
  cbv [and_then step print Fetcher.write_file fs requests stdout].
  rewrite Hdisk.
  cbv [and_then step print Fetcher.write_file fs requests stdout].
  rewrite report_run. unfold printed, run_lines, report_lines, Main.layers_of.
  simpl. by rewrite <- !app_assoc.
Qed.

(** What a run that reached its end has gone through. *)
Lemma main_done_inv (env : Env) (ids : N) (w w1 : World) :
  Main.main env ids w = (Done tt, w1) →
  ∃ wf bm bb rm rb,
    Fetcher.fetch env w = (Return tt, wf)
    ∧ fs wf !! Fetcher.mangrove_tif = Some bm
    ∧ fs wf !! Fetcher.ghsl_tif = Some bb
    ∧ Main.readable bm = Some rm
    ∧ Main.readable bb = Some rb
    ∧ disk env Main.map_html = None
    ∧ fs w1 = <[Main.map_html
                  := render (build_map (Main.layers_of rm rb)) ids]> (fs wf)
    ∧ requests w1 = requests wf
    ∧ stdout w1 = stdout wf ++ run_lines (Main.layers_of rm rb).
Proof.
  unfold Main.main, and_then at 1, step at 1.
  destruct (Fetcher.fetch env w) as [[[]|e] wf]; [|done].
  unfold and_then at 1, step at 1, print at 1.
  unfold and_then at 1.
  destruct (Main.load_clipped Fetcher.mangrove_tif _) as [[rm|f] w2] eqn:Hlm;
    [|done].
  apply load_clipped_done in Hlm as (-> & bm & Hm & Hrm).
  unfold and_then at 1.
  destruct (Main.load_clipped Fetcher.ghsl_tif _) as [[rb|f] w3] eqn:Hlb;
    [|done].
  apply load_clipped_done in Hlb as (-> & bb & Hb & Hrb).
  cbv [and_then step print Fetcher.write_file fs requests stdout].
  destruct (disk env Main.map_html) as [[|k]|] eqn:Hdisk; [done|done|].
  cbv [and_then step print Fetcher.write_file fs requests stdout].
  rewrite report_run. unfold printed. intros [= <-].
  exists wf, bm, bb, rm, rb. simpl.
  repeat (split; [done|]). unfold run_lines, report_lines, Main.layers_of.
  simpl. by rewrite <- !app_assoc.
Qed.

Lemma main_fetch_raises (env : Env) (ids : N) (w : World) (e : exn) :
  fst (Fetcher.fetch env w) = Raise e →
  Main.main env ids w = (Failed (PyExn e), snd (Fetcher.fetch env w)).
Proof.
  unfold Main.main, and_then at 1, step at 1.
  destruct (Fetcher.fetch env w) as [[[]|e'] wf]; simpl; [done|].
  by intros [= ->].
Qed.

End MainFacts.

(** X11: a run that reached its last line can be repeated without the
    network.  Started from the files the first run left, with the same
    disk but any server and any archive reader, the script reaches its last
    line again and makes no request.  It reads the same two rasters, so it
    builds the same layers; it leaves every file but the map as it is and
    writes the map again from those layers, with the identifiers folium
    draws in the new run; it prints the lines of steps 5 to 9 with no
    download message. *)
Theorem rerun_is_offline
    {K : Kernel} {R : RasterLib} {F : FloatOps}
    (env : Env) (ids : N) (w w1 : World) :
  Main.main env ids w = (Done tt, w1) →
  ∀ http' zip' ids',
    ∃ w2 rm rb,
      Main.main (mkEnv http' (disk env) zip') ids' w1 = (Done tt, w2)
      ∧ requests w2 = requests w1
      ∧ fs w1 !! Main.map_html
        = Some (render (build_map (Main.layers_of rm rb)) ids)
      ∧ fs w2 !! Main.map_html
        = Some (render (build_map (Main.layers_of rm rb)) ids')
      ∧ (∀ p, p ≠ Main.map_html → fs w2 !! p = fs w1 !! p)
      ∧ stdout w2 = stdout w1 ++ run_lines (Main.layers_of rm rb).
Proof.
  intros Hrun http' zip' ids'.
  apply main_done_inv in Hrun
    as (wf & bm & bb & rm & rb & _ & Hm & Hb & Hrm & Hrb & Hdisk & Hfs & _).
  assert (Hm1 : fs w1 !! Fetcher.mangrove_tif = Some bm).
  { rewrite Hfs, lookup_insert_ne; [done | discriminate]. }
  assert (Hb1 : fs w1 !! Fetcher.ghsl_tif = Some bb).
  { rewrite Hfs, lookup_insert_ne; [done | discriminate]. }
  eexists _, rm, rb.
  split; [by apply (main_cached _ ids' w1 bm bb rm rb)|].
  cbn [fs requests stdout].
  split; [done|]. split; [by rewrite Hfs, lookup_insert_eq|].
  split; [by rewrite lookup_insert_eq|]. split; [|done].
  intros p Hp. by rewrite lookup_insert_ne.
Qed.

Lemma rerun_is_offline_witness :
  ∃ w1,
    Main.main (R := MainSamples.raster_lib) (F := exact_ops)
      MainSamples.env_online 1%N Samples.empty_world = (Done tt, w1)
    ∧ requests w1 = [Fetcher.figshare_url; Fetcher.ghsl_url]
    ∧ ∃ w2 rm rb,
        Main.main (R := MainSamples.raster_lib) (F := exact_ops)
          MainSamples.env_unplugged 2%N w1 = (Done tt, w2)
        ∧ requests w2 = requests w1
        ∧ fs w1 !! Main.map_html
          = Some (render (RasterLib := MainSamples.raster_lib)
                    (build_map (Main.layers_of rm rb)) 1%N)
        ∧ fs w2 !! Main.map_html
          = Some (render (RasterLib := MainSamples.raster_lib)
                    (build_map (Main.layers_of rm rb)) 2%N)
        ∧ (∀ p, p ≠ Main.map_html → fs w2 !! p = fs w1 !! p)
        ∧ stdout w2
          = stdout w1
            ++ run_lines (F := exact_ops)
                 (Main.layers_of (R := MainSamples.raster_lib) rm rb).
Proof.
  assert (Hrun : ∃ w1,
            Main.main (R := MainSamples.raster_lib) (F := exact_ops)
              MainSamples.env_online 1%N Samples.empty_world = (Done tt, w1)
            ∧ requests w1 = [Fetcher.figshare_url; Fetcher.ghsl_url]).
  { eexists. split; vm_compute; reflexivity. }
  destruct Hrun as (w1 & Hrun & Hreq).
  exists w1. split; [exact Hrun|]. split; [exact Hreq|].
  exact (rerun_is_offline (R := MainSamples.raster_lib) (F := exact_ops)
           MainSamples.env_online 1%N Samples.empty_world w1 Hrun
           (fun _ => ConnectionFails) (fun _ => None) 2%N).
Defined.

(** X12: the script stops at its first failure and the later steps leave
    no trace.  An exception of the fetcher ends the run in the world the
    fetcher left.  When the fetcher returns but one of the two rasters is
    absent or cannot be read or clipped, the run ends at step 5: the map
    file is not written and nothing but the line of step 5 is printed.
    When the disk refuses the map, the statistics are never printed. *)
Theorem main_stops_at_first_failure
    {K : Kernel} {R : RasterLib} {F : FloatOps}
    (env : Env) (ids : N) (w : World) :
  (∀ e, fst (Fetcher.fetch env w) = Raise e →
        Main.main env ids w = (Failed (PyExn e), snd (Fetcher.fetch env w)))
  ∧ (∀ wf, Fetcher.fetch env w = (Return tt, wf) →
        (fs wf !! Fetcher.mangrove_tif ≫= Main.readable) = None
        ∨ (fs wf !! Fetcher.ghsl_tif ≫= Main.readable) = None →
        ∃ f, Main.main env ids w
             = (Failed f, printed ["Loading and clipping rasters..."] wf))
  ∧ (∀ wf bm bb rm rb flt,
        Fetcher.fetch env w = (Return tt, wf) →
        fs wf !! Fetcher.mangrove_tif = Some bm →
        fs wf !! Fetcher.ghsl_tif = Some bb →
        Main.readable bm = Some rm →
        Main.readable bb = Some rb →
        disk env Main.map_html = Some flt →
        ∃ w', Main.main env ids w = (Failed (PyExn OSError), w')
              ∧ stdout w'
                = stdout wf
                  ++ [ "Loading and clipping rasters...";
                       "Vectorizing rasters (this may take a minute)...";
                       "Preparing geometries for mapping...";
                       "Creating Folium map..." ]).
Proof.
  split; [apply main_fetch_raises|]. split.
  - intros wf Hf Hbad.
    unfold Main.main, and_then at 1, step at 1. rewrite Hf.
    unfold and_then at 1, step at 1, print at 1.
    unfold and_then at 1.
    pose proof (load_clipped_world Fetcher.mangrove_tif
                  (printed ["Loading and clipping rasters..."] wf)) as Hw1.
    unfold printed in Hw1.
    destruct (Main.load_clipped Fetcher.mangrove_tif _)
      as [[rm|f] w2] eqn:Hlm; simpl in Hw1; subst w2; [|by exists f].
    unfold and_then at 1.
    pose proof (load_clipped_world Fetcher.ghsl_tif
                  (printed ["Loading and clipping rasters..."] wf)) as Hw2.
    unfold printed in Hw2.
    destruct (Main.load_clipped Fetcher.ghsl_tif _)
      as [[rb|f] w3] eqn:Hlb; simpl in Hw2; subst w3; [|by exists f].
    apply load_clipped_done in Hlm as (_ & bm & Hm & Hrm).
    apply load_clipped_done in Hlb as (_ & bb & Hb & Hrb).
    simpl in Hm, Hb. rewrite Hm, Hb in Hbad. simpl in Hbad.
    rewrite Hrm, Hrb in Hbad. by destruct Hbad.
  - intros wf bm bb rm rb flt Hf Hm Hb Hrm Hrb Hdisk.
    unfold Main.main, and_then at 1, step at 1. rewrite Hf.
    unfold and_then at 1, step at 1, print at 1.
    unfold and_then at 1.
    rewrite (load_clipped_ok Fetcher.mangrove_tif _ bm rm); [|done|done].
    unfold and_then at 1.
    rewrite (load_clipped_ok Fetcher.ghsl_tif _ bb rb); [|done|done].
    cbv [and_then step print Fetcher.write_file fs requests stdout].
    rewrite Hdisk.
    destruct flt as [|k]; eexists; (split; [reflexivity|]); simpl;
      by rewrite <- !app_assoc.
Qed.

(** X14: after step 3 the script never touches the network, and the only
    file it writes is the map: the request log of a whole run is the
    request log of its fetcher, and every path but the map's holds what
    the fetcher left there, however the run ends. *)
Theorem main_footprint
    {K : Kernel} {R : RasterLib} {F : FloatOps}
    (env : Env) (ids : N) (w : World) :
  requests (snd (Main.main env ids w)) = requests (snd (Fetcher.fetch env w))
  ∧ ∀ p, p ≠ Main.map_html →
         fs (snd (Main.main env ids w)) !! p
         = fs (snd (Fetcher.fetch env w)) !! p.
Proof.
  destruct (Main.main env ids w) as [r w'] eqn:Hrun. simpl.
  unfold Main.main, and_then at 1, step at 1 in Hrun.
  destruct (Fetcher.fetch env w) as [[[]|e] wf]; simpl;
    [|by injection Hrun as _ <-].
  unfold and_then at 1, step at 1, print at 1 in Hrun.
  unfold and_then at 1 in Hrun.
  pose proof (load_clipped_world Fetcher.mangrove_tif
                (printed ["Loading and clipping rasters..."] wf)) as Hw1.
  unfold printed in Hw1.
  destruct (Main.load_clipped Fetcher.mangrove_tif _) as [[rm|f] w2];
    simpl in Hw1; subst w2; [|by injection Hrun as _ <-].
  unfold and_then at 1 in Hrun.
  pose proof (load_clipped_world Fetcher.ghsl_tif
                (printed ["Loading and clipping rasters..."] wf)) as Hw2.
  unfold printed in Hw2.
  destruct (Main.load_clipped Fetcher.ghsl_tif _) as [[rb|f] w3];
    simpl in Hw2; subst w3; [|by injection Hrun as _ <-].
  cbv [and_then step print Fetcher.write_file fs requests stdout] in Hrun.
  destruct (disk env Main.map_html) as [[|k]|].
  - by injection Hrun as _ <-.
  - injection Hrun as _ <-. simpl. split; [done|].
    intros p Hp. by rewrite lookup_insert_ne.
  - cbv [and_then step print Fetcher.write_file fs requests stdout] in Hrun.
    rewrite report_run in Hrun. unfold printed in Hrun.
    injection Hrun as _ <-. simpl. split; [done|].
    intros p Hp. by rewrite lookup_insert_ne.
Qed.


